(** * Emergency-department intake simulation: a shallow embedding

    The development follows [hgospital projexct.cpp]: the [Patient] and
    [Resource] structs, the comparator of the waiting room, the four
    random generators, and the body of the [while] loop of [main], phase by
    phase (arrivals, availability refresh with the next-event minimum,
    clock step, allocation), followed by the final metrics.

    Conventions.
    - [int] values are [Z]. The clock and every [endTime] of a run stay
      within [0 .. SIMULATION_MINUTES + 120], far from the limits of
      [int]; [static_cast<int>] is truncation into [Z], with no overflow.
    - [double] values are exact rationals [Q]: a sampled gap can differ
      from the program's by a minute where rounding crosses a whole
      number. The [double] accumulators only ever hold sums of [int]s and
      are kept as [Z].
    - [std::mt19937] and the two standard distributions are an interface
      ([RandomSource]): a generator state is threaded through every draw.
    - [std::vector<Resource>] is a list read and written by index;
      [std::find_if] is [list_find]. The sizes of the two pools are
      arguments of [init]; the program runs [init NUM_DOCTORS NUM_BEDS].
    - [std::priority_queue] is kept as the list of its elements in pop
      order: [top] is the head, [pop] drops it, [push] inserts behind every
      element that the comparator does not rank below the new one. Among
      patients that the comparator leaves equivalent the list pops the
      older insertion first, where the heap of the library may pop them
      in another order; no statement below depends on that order. *)

From Stdlib Require Import ZArith QArith Lia Sorted.
From stdpp Require Import base list.

Local Open Scope Z_scope.

(** ** Data model *)

Record Patient := mkPatient {
  id : Z;
  arrivalTime : Z;
  severity : Z;
  treatmentTime : Z;
  waitTime : Z;
  startTreatmentTime : Z
}.

Record Resource := mkResource {
  available : bool;
  endTime : Z
}.

(** [PatientComparator::operator()]: the "less than" of the heap. *)
Definition PatientComparator (a b : Patient) : bool :=
  if negb (severity a =? severity b) then severity a <? severity b
  else arrivalTime a >? arrivalTime b.

(** ** The waiting room *)

Module WaitingRoom.

Definition t := list Patient.

Definition empty (w : t) : bool :=
  match w with [] => true | _ => false end.

Definition top (w : t) : option Patient := head w.

Definition pop (w : t) : t := tail w.

Fixpoint push (p : Patient) (w : t) : t :=
  match w with
  | [] => [p]
  | x :: rest =>
      if PatientComparator x p then p :: x :: rest else x :: push p rest
  end.

(** The queues a program can hold: built from the empty one. *)
Inductive built : t -> Prop :=
| built_empty : built []
| built_push p w : built w -> built (push p w)
| built_pop w : built w -> built (pop w).

(** [outranks p q]: [p] has strictly higher severity, or the same
    severity and a strictly earlier arrival. *)
Definition outranks (p q : Patient) : Prop :=
  severity q < severity p \/
  (severity p = severity q /\ arrivalTime p < arrivalTime q).

(** [a] is not ranked below [b]. *)
Definition not_below (a b : Patient) : Prop := PatientComparator a b = false.

(** Pop order: nobody is ranked below a patient that comes later. *)
Definition ordered (w : t) : Prop := StronglySorted not_below w.

End WaitingRoom.

(** ** Random generators *)

(** The generator state and the two primitive draws of the program.
    [std_exponential] is the unit-rate variate [-log (1 - u)] that
    [std::exponential_distribution] divides by its rate parameter;
    [uniform_int a b] is [std::uniform_int_distribution<int>(a, b)]. *)
Class RandomSource (RNG : Type) := {
  std_exponential : RNG -> Q * RNG;
  uniform_int : Z -> Z -> RNG -> Z * RNG
}.

Class RandomSourceOk (RNG : Type) `{RandomSource RNG} : Prop := {
  std_exponential_nonneg : forall g, (0 <= fst (std_exponential g))%Q;
  uniform_int_range : forall a b g,
    a <= b -> a <= fst (uniform_int a b g) <= b
}.

(** [static_cast<int>] of a [double]: truncation toward zero. *)
Definition Qtrunc (x : Q) : Z := Z.quot (Qnum x) (Zpos (Qden x)).

(** [predictArrivalRate]. *)
Definition predictArrivalRate (currentHour : Z) : Q :=
  if (18 <=? currentHour) && (currentHour <=? 22) then 8
  else if (0 <=? currentHour) && (currentHour <=? 6) then 2
  else 5.

Definition SIMULATION_MINUTES : Z := 1440.
Definition NUM_DOCTORS : nat := 5.
Definition NUM_BEDS : nat := 10.
Definition BASE_LAMBDA : Q := 5.

Section Generators.
Context {RNG : Type} `{RandomSource RNG}.

(** [std::exponential_distribution<double> d(lambda); d(rng)]. *)
Definition exponential_distribution (lambda : Q) (g : RNG) : Q * RNG :=
  let '(x, g') := std_exponential g in ((x / lambda)%Q, g').

(** [generateArrivalTime]: the distribution is built with the rate
    [1.0 / lambdaPerHour]. *)
Definition generateArrivalTime (currentTime : Z) (lambdaPerHour : Q) (g : RNG)
  : Z * RNG :=
  let '(hoursToNext, g') :=
    exponential_distribution (1 / lambdaPerHour)%Q g in
  (currentTime + Qtrunc (hoursToNext * 60)%Q, g').

(** [generateSeverity]. *)
Definition generateSeverity (g : RNG) : Z * RNG :=
  let '(roll, g') := uniform_int 1 10 g in
  (if 7 <=? roll then 5
   else if 5 <=? roll then 4
   else if 3 <=? roll then 3
   else if 2 <=? roll then 2
   else 1, g').

(** [generateTreatmentTime]. *)
Definition generateTreatmentTime (severity : Z) (g : RNG) : Z * RNG :=
  uniform_int (30 + severity * 10) 120 g.

(** The generator that the specification describes: an exponential
    inter-arrival time of rate [ratePerHour] per hour, that is of mean
    [60 / ratePerHour] minutes (the unit-rate variate scaled by the mean). *)
Definition spec_generateArrivalTime (currentTime : Z) (ratePerHour : Q) (g : RNG)
  : Z * RNG :=
  let '(x, g') := std_exponential g in
  (currentTime + Qtrunc (x * (60 / ratePerHour))%Q, g').

End Generators.

(** ** Simulation state *)

(** One acquisition of a doctor and a bed, as performed by the allocation
    step: the indices of the two units, the patient as updated through the
    reference to the top of the queue, and the busy interval. This is the
    trace of a run; the program itself keeps no such record. *)
Record Assignment := mkAssignment {
  a_patient : Patient;
  a_doctor : nat;
  a_bed : nat;
  a_time : Z;
  a_until : Z
}.

Section Simulation.
Context {RNG : Type} `{RandomSource RNG}.

Record State := mkState {
  rng : RNG;
  doctors : list Resource;
  beds : list Resource;
  waitingRoom : WaitingRoom.t;
  allPatients : list Patient;
  nextPatientId : Z;
  currentTime : Z;
  nextArrivalTime : Z;
  totalWaitTime : Z;
  totalPatients : Z;
  patientsTreated : Z;
  doctorUtilization : Z;
  bedUtilization : Z
}.

(** The locals of [main] before the loop, for pools of the given sizes. *)
Definition init (numDoctors numBeds : nat) (g : RNG) : State :=
  let '(arrival, g') := generateArrivalTime 0 BASE_LAMBDA g in
  {| rng := g';
     doctors := replicate numDoctors (mkResource true 0);
     beds := replicate numBeds (mkResource true 0);
     waitingRoom := [];
     allPatients := [];
     nextPatientId := 1;
     currentTime := 0;
     nextArrivalTime := arrival;
     totalWaitTime := 0;
     totalPatients := 0;
     patientsTreated := 0;
     doctorUtilization := 0;
     bedUtilization := 0 |}.

(** The condition of the outer [while]. *)
Definition loop_cond (s : State) : bool :=
  (currentTime s <? SIMULATION_MINUTES)
  || negb (WaitingRoom.empty (waitingRoom s)).

(** [lambda], computed once at the head of the loop body. *)
Definition arrival_lambda (s : State) : Q :=
  (BASE_LAMBDA * predictArrivalRate (Z.quot (currentTime s) 60))%Q.

(** One pass of the inner [while] (lines 97-107). *)
Definition admit_one (lambda : Q) (s : State) : State :=
  let '(sev, g1) := generateSeverity (rng s) in
  let '(treat, g2) := generateTreatmentTime sev g1 in
  let p := mkPatient (nextPatientId s) (nextArrivalTime s) sev treat 0 0 in
  let '(arrival, g3) := generateArrivalTime (nextArrivalTime s) lambda g2 in
  {| rng := g3;
     doctors := doctors s;
     beds := beds s;
     waitingRoom := WaitingRoom.push p (waitingRoom s);
     allPatients := allPatients s ++ [p];
     nextPatientId := nextPatientId s + 1;
     currentTime := currentTime s;
     nextArrivalTime := arrival;
     totalWaitTime := totalWaitTime s;
     totalPatients := totalPatients s + 1;
     patientsTreated := patientsTreated s;
     doctorUtilization := doctorUtilization s;
     bedUtilization := bedUtilization s |}.

(** The condition of the inner [while]. *)
Definition arrival_due (s : State) : bool :=
  (nextArrivalTime s <=? currentTime s)
  && (nextArrivalTime s <? SIMULATION_MINUTES).

(** The inner [while]. [None] when the passes allowed by [fuel] do not
    suffice to leave it. *)
Fixpoint admit_arrivals (fuel : nat) (lambda : Q) (s : State) : option State :=
  if arrival_due s then
    match fuel with
    | O => None
    | S fuel' => admit_arrivals fuel' lambda (admit_one lambda s)
    end
  else Some s.

(** One pass of a [for (auto& r : pool)] loop: the unit is marked
    available when its [endTime] has passed. *)
Definition release (now : Z) (r : Resource) : Resource :=
  if negb (available r) && (endTime r <=? now)
  then mkResource true (endTime r) else r.

(** The whole [for] loop: the refreshed pool and the running minimum. *)
Fixpoint refresh_pool (now : Z) (pool : list Resource) (nextEventTime : Z)
  : list Resource * Z :=
  match pool with
  | [] => ([], nextEventTime)
  | r :: rest =>
      let r' := release now r in
      let '(rest', t) :=
        refresh_pool now rest (Z.min nextEventTime (endTime r')) in
      (r' :: rest', t)
  end.

(** Lines 111-124: the next-event time, the refresh of both pools, and
    the clock step. *)
Definition advance_clock (s : State) : State :=
  let nextEventTime := SIMULATION_MINUTES in
  let nextEventTime :=
    match WaitingRoom.top (waitingRoom s) with
    | Some p => Z.min nextEventTime (arrivalTime p)
    | None => nextEventTime
    end in
  let '(doctors', nextEventTime) :=
    refresh_pool (currentTime s) (doctors s) nextEventTime in
  let '(beds', nextEventTime) :=
    refresh_pool (currentTime s) (beds s) nextEventTime in
  {| rng := rng s;
     doctors := doctors';
     beds := beds';
     waitingRoom := waitingRoom s;
     allPatients := allPatients s;
     nextPatientId := nextPatientId s;
     currentTime := Z.min (currentTime s + 1) nextEventTime;
     nextArrivalTime := nextArrivalTime s;
     totalWaitTime := totalWaitTime s;
     totalPatients := totalPatients s;
     patientsTreated := patientsTreated s;
     doctorUtilization := doctorUtilization s;
     bedUtilization := bedUtilization s |}.

(** The predicate of both [std::find_if] calls. *)
Definition usable (assignTime : Z) (r : Resource) : bool :=
  available r && (assignTime >=? endTime r).

Definition find_usable (assignTime : Z) (pool : list Resource)
  : option (nat * Resource) :=
  list_find (fun r => usable assignTime r = true) pool.

(** What [topPatient.treatmentTime] reads after [waitingRoom.pop()]:
    [topPatient] is bound to the first slot of the underlying vector,
    which holds the next patient in pop order once the popped one has
    been moved out, and still holds the popped one when it was alone. *)
Definition front_slot (popped : Patient) (w : WaitingRoom.t) : Patient :=
  match WaitingRoom.top w with Some q => q | None => popped end.

(** Lines 141-154: the body of the innermost [if]. *)
Definition assign (s : State) (topPatient : Patient) (assignTime : Z)
    (availDoctor availBed : nat) : State * Assignment :=
  let topPatient' :=
    mkPatient (id topPatient) (arrivalTime topPatient)
      (severity topPatient) (treatmentTime topPatient)
      (assignTime - arrivalTime topPatient) assignTime in
  let until := assignTime + treatmentTime topPatient' in
  let waitingRoom' := WaitingRoom.pop (waitingRoom s) in
  let slot := front_slot topPatient' waitingRoom' in
  ({| rng := rng s;
      doctors := <[availDoctor := mkResource false until]> (doctors s);
      beds := <[availBed := mkResource false until]> (beds s);
      waitingRoom := waitingRoom';
      allPatients := allPatients s;
      nextPatientId := nextPatientId s;
      currentTime := currentTime s;
      nextArrivalTime := nextArrivalTime s;
      totalWaitTime := totalWaitTime s + waitTime topPatient';
      totalPatients := totalPatients s;
      patientsTreated := patientsTreated s + 1;
      doctorUtilization := doctorUtilization s + treatmentTime slot;
      bedUtilization := bedUtilization s + treatmentTime slot |},
   mkAssignment topPatient' availDoctor availBed assignTime until).

(** Lines 127-157. The second component records the acquisition, if any. *)
Definition allocate (s : State) : State * option Assignment :=
  match WaitingRoom.top (waitingRoom s) with
  | None => (s, None)
  | Some topPatient =>
      let assignTime := Z.max (currentTime s) (arrivalTime topPatient) in
      match find_usable assignTime (doctors s) with
      | None => (s, None)
      | Some (availDoctor, _) =>
          match find_usable assignTime (beds s) with
          | None => (s, None)
          | Some (availBed, _) =>
              let '(s', a) :=
                assign s topPatient assignTime availDoctor availBed in
              (s', Some a)
          end
      end
  end.

(** One pass of the outer loop body. *)
Definition tick (fuel : nat) (s : State) : option (State * option Assignment) :=
  match admit_arrivals fuel (arrival_lambda s) s with
  | None => None
  | Some s1 => Some (allocate (advance_clock s1))
  end.

(** [run s0 s log]: the loop started in [s0] is at its head in state [s]
    after some number of passes, having performed the acquisitions of
    [log], oldest first. *)
Inductive run (s0 : State) : State -> list Assignment -> Prop :=
| run_start : run s0 s0 []
| run_tick s log fuel s' ev :
    run s0 s log ->
    loop_cond s = true ->
    tick fuel s = Some (s', ev) ->
    run s0 s' (log ++ option_list ev).

(** Lines 161-163. *)
Record Summary := mkSummary {
  sum_totalPatients : Z;
  sum_patientsTreated : Z;
  avgWaitTime : Q;
  sum_doctorUtilization : Q;
  sum_bedUtilization : Q
}.

Definition finalize (numDoctors numBeds : nat) (s : State) : Summary :=
  {| sum_totalPatients := totalPatients s;
     sum_patientsTreated := patientsTreated s;
     avgWaitTime :=
       if 0 <? patientsTreated s
       then (inject_Z (totalWaitTime s) / inject_Z (patientsTreated s))%Q
       else 0%Q;
     sum_doctorUtilization :=
       if 0 <? Z.of_nat numDoctors
       then (inject_Z (doctorUtilization s)
             / inject_Z (Z.of_nat numDoctors * SIMULATION_MINUTES))%Q
       else 0%Q;
     sum_bedUtilization :=
       if 0 <? Z.of_nat numBeds
       then (inject_Z (bedUtilization s)
             / inject_Z (Z.of_nat numBeds * SIMULATION_MINUTES))%Q
       else 0%Q |}.

End Simulation.

Arguments State RNG : clear implicits.

(** ** The clock step, in closed form *)

(** The running minimum of a [for] loop over a pool. *)
Definition pool_min (t : Z) (pool : list Resource) : Z :=
  foldl (fun t r => Z.min t (endTime r)) t pool.

(** The value of [nextEventTime] at line 124. *)
Definition next_event {RNG : Type} (s : State RNG) : Z :=
  pool_min
    (pool_min
       (match WaitingRoom.top (waitingRoom s) with
        | Some p => Z.min SIMULATION_MINUTES (arrivalTime p)
        | None => SIMULATION_MINUTES
        end)
       (doctors s))
    (beds s).

(** ** Invariants of the loop *)

Section Invariants.
Context {RNG : Type} `{RandomSource RNG}.

(** A unit at time [now]: its [endTime] is not in the past, and it is
    flagged available only when its [endTime] has been reached. *)
Definition unit_ok (now : Z) (r : Resource) : Prop :=
  now <= endTime r /\ (available r = true -> endTime r <= now).

(** A waiting patient at time [now]: it arrived at [now], and its
    severity and treatment time are in the ranges of the generators. *)
Definition patient_ok (now : Z) (p : Patient) : Prop :=
  arrivalTime p = now /\ 1 <= severity p <= 5 /\ 40 <= treatmentTime p <= 120.

Record Inv (s : State RNG) : Prop := {
  inv_time : 0 <= currentTime s <= SIMULATION_MINUTES;
  inv_arrival : currentTime s <= nextArrivalTime s;
  inv_doctors : Forall (unit_ok (currentTime s)) (doctors s);
  inv_beds : Forall (unit_ok (currentTime s)) (beds s);
  inv_waiting : Forall (patient_ok (currentTime s)) (waitingRoom s);
  inv_ordered : WaitingRoom.ordered (waitingRoom s);
  inv_retained : Forall (fun p => waitTime p = 0 /\ startTreatmentTime p = 0)
                   (allPatients s)
}.

(** The inner loop has been left. *)
Definition arrivals_done (s : State RNG) : Prop :=
  currentTime s < nextArrivalTime s \/ SIMULATION_MINUTES <= nextArrivalTime s.

(** [covers pool i t]: unit [i] of [pool] is booked at least until [t]. *)
Definition covers (pool : list Resource) (i : nat) (t : Z) : Prop :=
  exists r, pool !! i = Some r /\ t <= endTime r.

(** The acquisitions of a log, oldest first, never overlap on a unit:
    a later busy interval of the same doctor (or bed) starts at or after
    the end of every earlier one. *)
Definition disjoint_log (log : list Assignment) : Prop :=
  forall i j a b, (i < j)%nat -> log !! i = Some a -> log !! j = Some b ->
    (a_doctor a = a_doctor b -> a_until a <= a_time b) /\
    (a_bed a = a_bed b -> a_until a <= a_time b).

Record LogInv (s : State RNG) (log : list Assignment) : Prop := {
  log_doctors : Forall (fun a => covers (doctors s) (a_doctor a) (a_until a)) log;
  log_beds : Forall (fun a => covers (beds s) (a_bed a) (a_until a)) log;
  log_disjoint : disjoint_log log;
  log_shape : Forall (fun a => a_until a = a_time a + treatmentTime (a_patient a)
                               /\ 40 <= treatmentTime (a_patient a) <= 120) log
}.

(** Counting the units of a pool that satisfy a test. *)
Fixpoint count (f : Resource -> bool) (pool : list Resource) : nat :=
  match pool with
  | [] => O
  | r :: rest => if f r then S (count f rest) else count f rest
  end.

Definition never_acquired (r : Resource) : bool := endTime r =? 0.

(** The state of a run whose pools have fewer doctors than beds: the
    clock is at 0, a busy doctor is busy until a positive time, and
    there are more beds that were never acquired than available doctors. *)
Record Stuck (s : State RNG) : Prop := {
  stuck_time : currentTime s = 0;
  stuck_busy : Forall (fun r => available r = false -> 0 < endTime r) (doctors s);
  stuck_count : (count available (doctors s) < count never_acquired (beds s))%nat
}.

End Invariants.

(** ** A scripted random source

    A generator that replays two tapes, one per primitive draw. An
    exhausted exponential tape yields a variate so large that no further
    arrival falls before the horizon; an exhausted integer tape yields the
    lower bound. *)
Module Scripted.

Record tape := mkTape {
  exp_tape : list (N * positive);
  int_tape : list Z
}.

Definition draw_exponential (g : tape) : Q * tape :=
  match exp_tape g with
  | [] => (1000%Q, g)
  | (n, d) :: rest => (Qmake (Z.of_N n) d, mkTape rest (int_tape g))
  end.

Definition draw_uniform (a b : Z) (g : tape) : Z * tape :=
  match int_tape g with
  | [] => (a, g)
  | z :: rest => (a + z mod (b - a + 1), mkTape (exp_tape g) rest)
  end.

#[global] Instance source : RandomSource tape :=
  {| std_exponential := draw_exponential; uniform_int := draw_uniform |}.

(** [iterate n s]: [n] passes of the loop from [s], each with fuel 8 for
    the inner loop, and the acquisitions they perform. [None] when the
    loop is left, or the fuel exhausted, before the [n]-th pass ends. *)
Fixpoint iterate (n : nat) (s : State tape)
  : option (State tape * list Assignment) :=
  match n with
  | O => Some (s, [])
  | S n' =>
      match iterate n' s with
      | Some (s', log) =>
          if loop_cond s' then
            match tick 8 s' with
            | Some (s'', ev) => Some (s'', log ++ option_list ev)
            | None => None
            end
          else None
      | None => None
      end
  end.

(** First arrival after five hours: nobody arrives at minute 0. *)
Definition late_arrival : tape := mkTape [(1%N, 1%positive)] [].

(** Three patients at minute 0, the next one ten hours later. *)
Definition three_at_zero : tape :=
  mkTape [(0%N, 1%positive); (0%N, 1%positive); (0%N, 1%positive);
          (1%N, 1%positive)]
         [9; 3; 2; 7; 0; 0].

(** One patient at minute 0 with a treatment time of 40, one patient at
    minute 40. *)
Definition two_visits : tape :=
  mkTape [(0%N, 1%positive); (1%N, 15%positive)] [0; 0; 9; 3].

(** The state and the log after [n] passes, or the start if there is
    no such pass. *)
Definition after (n : nat) (s : State tape) : State tape * list Assignment :=
  match iterate n s with Some r => r | None => (s, []) end.

(** The program's pools after four passes with [three_at_zero]: three
    patients treated, nobody waiting. *)
Definition busy_ward : State tape * list Assignment :=
  after 4 (init NUM_DOCTORS NUM_BEDS three_at_zero).

(** The program's pools after one pass with [three_at_zero]: one patient
    treated, two waiting. *)
Definition two_waiting : State tape * list Assignment :=
  after 1 (init NUM_DOCTORS NUM_BEDS three_at_zero).

(** One doctor, no bed, one patient waiting. *)
Definition no_bed : State tape * list Assignment :=
  after 1 (init 1 0 two_visits).

(** One doctor and one bed, both booked until minute 40, at the head of
    the pass that starts at minute 39. *)
Definition minute_39 : State tape * list Assignment :=
  after 40 (init 1 1 two_visits).

Definition patient_a : Patient := mkPatient 1 0 3 60 0 0.
Definition patient_b : Patient := mkPatient 2 0 5 90 0 0.
Definition patient_c : Patient := mkPatient 3 7 5 80 0 0.

(** A waiting room filled in the order a, b, c. *)
Definition sample_room : WaitingRoom.t :=
  WaitingRoom.push patient_c
    (WaitingRoom.push patient_b (WaitingRoom.push patient_a [])).

End Scripted.

(** ** Bookkeeping of a run *)

(** What identifies a patient, whatever was written to its wait fields. *)
Definition identity (p : Patient) : Z * Z * Z * Z :=
  (id p, arrivalTime p, severity p, treatmentTime p).

(** Neither patient is ranked below the other. *)
Definition equivalent (a b : Patient) : Prop :=
  PatientComparator a b = false /\ PatientComparator b a = false.

Section Bookkeeping.
Context {RNG : Type} `{RandomSource RNG}.

(** Identifiers and counters against the registry and the trace. *)
Record Ledger (s : State RNG) (log : list Assignment) : Prop := {
  ledger_ids : forall i p, allPatients s !! i = Some p -> id p = Z.of_nat i + 1;
  ledger_next : nextPatientId s = Z.of_nat (length (allPatients s)) + 1;
  ledger_total : totalPatients s = Z.of_nat (length (allPatients s));
  ledger_treated : patientsTreated s = Z.of_nat (length log);
  ledger_perm :
    (identity <$> waitingRoom s) ++ (identity <$> (a_patient <$> log))
    ≡ₚ identity <$> allPatients s
}.

(** The accumulators of the metrics. *)
Record Accounts (s : State RNG) (log : list Assignment) : Prop := {
  acc_wait : totalWaitTime s = 0;
  acc_log : Forall (fun a => a_time a = arrivalTime (a_patient a)
                             /\ waitTime (a_patient a) = 0
                             /\ startTreatmentTime (a_patient a) = a_time a) log;
  acc_equal : doctorUtilization s = bedUtilization s;
  acc_bounds : 40 * patientsTreated s <= doctorUtilization s
               <= 120 * patientsTreated s
}.

(** A record as the arrival loop writes it, seen at time [now]. *)
Definition record_ok (now : Z) (p : Patient) : Prop :=
  0 <= arrivalTime p <= now /\ arrivalTime p < SIMULATION_MINUTES /\
  1 <= severity p <= 5 /\
  30 + severity p * 10 <= treatmentTime p <= 120.

Record Registry (s : State RNG) : Prop := {
  reg_records : Forall (record_ok (currentTime s)) (allPatients s);
  reg_sorted : forall i j p q,
    (i <= j)%nat -> allPatients s !! i = Some p -> allPatients s !! j = Some q ->
    arrivalTime p <= arrivalTime q
}.

(** A patient waits and one of the pools has no unit that is free at the
    current time. *)
Definition blocked (s : State RNG) : Prop :=
  waitingRoom s <> [] /\
  (Forall (fun r => currentTime s < endTime r) (doctors s) \/
   Forall (fun r => currentTime s < endTime r) (beds s)).

(** The fields that the arrival loop leaves alone. *)
Definition same_outside_arrivals (s s1 : State RNG) : Prop :=
  currentTime s1 = currentTime s /\ doctors s1 = doctors s /\
  beds s1 = beds s /\ totalWaitTime s1 = totalWaitTime s /\
  patientsTreated s1 = patientsTreated s /\
  doctorUtilization s1 = doctorUtilization s /\
  bedUtilization s1 = bedUtilization s.

(** What the arrival loop has done when it is left. *)
Definition admitted (s s1 : State RNG) (new : list Patient) : Prop :=
  allPatients s1 = allPatients s ++ new /\
  waitingRoom s1 ≡ₚ new ++ waitingRoom s /\
  totalPatients s1 = totalPatients s + Z.of_nat (length new) /\
  Forall (fun p => arrivalTime p = currentTime s /\ waitTime p = 0
                   /\ startTreatmentTime p = 0) new.

End Bookkeeping.

(** ** More scripted runs *)

Module Days.
Import Scripted.

(** One doctor and one bed for a whole day: twelve patients, each
    treated for 120 minutes, each arriving when the previous one leaves. *)
Definition full_day_tape : tape :=
  mkTape ([(0%N, 1%positive)] ++ replicate 4 (1%N, 5%positive)
          ++ replicate 5 (2%N, 25%positive)
          ++ replicate 2 (1%N, 20%positive))
         (concat (replicate 12 [0; 80])).

(** The state in which that run leaves the loop, after 1452 passes. *)
Definition full_day : State tape * list Assignment :=
  after 1452 (init 1 1 full_day_tape).

(** The same run at the head of the pass that starts at minute 120. *)
Definition minute_120 : State tape * list Assignment :=
  after 121 (init 1 1 full_day_tape).

(** Six patients at minute 0 for the program's pools. *)
Definition six_at_zero : tape :=
  mkTape (replicate 6 (0%N, 1%positive)) [9; 3; 2; 7; 0; 0; 5; 5; 4; 4; 3; 3].

(** After six passes: five patients treated, the sixth waiting. *)
Definition sixth_waits : State tape * list Assignment :=
  after 6 (init NUM_DOCTORS NUM_BEDS six_at_zero).

(** After one pass: one patient treated, five waiting. *)
Definition five_waiting : State tape * list Assignment :=
  after 1 (init NUM_DOCTORS NUM_BEDS six_at_zero).

(** No doctor, three patients at minute 0. *)
Definition no_doctor : State tape * list Assignment :=
  after 3 (init 0 2 three_at_zero).

(** The full-day run at minute 120, once the arrival loop has run. *)
Definition admitted_120 : State tape :=
  match admit_arrivals 8 (arrival_lambda (fst minute_120)) (fst minute_120) with
  | Some x => x
  | None => fst minute_120
  end.

(** The allocation step from [five_waiting]: doctor 0 and bed 0 are busy. *)
Definition second_allocation : State tape * option Assignment :=
  allocate (fst five_waiting).

Definition second_assignment : Assignment :=
  match snd second_allocation with
  | Some a => a
  | None => mkAssignment patient_a 0 0 0 0
  end.

End Days.

(** * Properties *)

(** ** Arithmetic of the generators *)

Lemma Qtrunc_nonneg (x : Q) : (0 <= x)%Q -> 0 <= Qtrunc x.
Proof.
  destruct x as [n d]. unfold Qle, Qtrunc. simpl. intros Hn.
  apply Z.quot_pos; lia.
Qed.

Lemma Qtrunc_proper (x y : Q) : (x == y)%Q -> Qtrunc x = Qtrunc y.
Proof.
  destruct x as [n1 d1], y as [n2 d2]. unfold Qeq, Qtrunc. simpl. intros E.
  rewrite <- (Z.quot_mul_cancel_r n1 (Zpos d1) (Zpos d2)) by lia.
  rewrite <- (Z.quot_mul_cancel_r n2 (Zpos d2) (Zpos d1)) by lia.
  rewrite E. f_equal. lia.
Qed.

Lemma predictArrivalRate_cases (h : Z) :
  predictArrivalRate h = 8%Q \/ predictArrivalRate h = 2%Q
  \/ predictArrivalRate h = 5%Q.
Proof.
  unfold predictArrivalRate.
  destruct (_ && _); [auto|]. destruct (_ && _); auto.
Qed.

Section GeneratorFacts.
Context {RNG : Type} `{RandomSourceOk RNG}.

Lemma arrival_lambda_nonneg (s : State RNG) : (0 <= arrival_lambda s)%Q.
Proof.
  unfold arrival_lambda, BASE_LAMBDA.
  destruct (predictArrivalRate_cases (currentTime s ÷ 60)) as [-> | [-> | ->]];
    discriminate.
Qed.

(** The scaling applied to the unit-rate variate. *)
Lemma generateArrivalTime_eq (t : Z) (lambda : Q) (g : RNG) :
  generateArrivalTime t lambda g =
  (t + Qtrunc (fst (std_exponential g) / (1 / lambda) * 60)%Q,
   snd (std_exponential g)).
Proof.
  unfold generateArrivalTime, exponential_distribution.
  destruct (std_exponential g) as [x g']. reflexivity.
Qed.

Lemma generateArrivalTime_ge (t : Z) (lambda : Q) (g : RNG) :
  (0 <= lambda)%Q -> t <= fst (generateArrivalTime t lambda g).
Proof.
  intros Hl. rewrite generateArrivalTime_eq. simpl.
  enough (0 <= Qtrunc (fst (std_exponential g) / (1 / lambda) * 60)%Q) by lia.
  apply Qtrunc_nonneg.
  apply Qmult_le_0_compat; [|discriminate].
  apply Qmult_le_0_compat; [apply std_exponential_nonneg|].
  apply Qinv_le_0_compat.
  apply Qmult_le_0_compat; [discriminate|].
  by apply Qinv_le_0_compat.
Qed.

Lemma generateSeverity_range (g : RNG) :
  1 <= fst (generateSeverity g) <= 5.
Proof.
  unfold generateSeverity.
  destruct (uniform_int 1 10 g) as [roll g']. simpl.
  repeat case_match; lia.
Qed.

Lemma generateTreatmentTime_range (sev : Z) (g : RNG) :
  1 <= sev <= 5 -> 40 <= fst (generateTreatmentTime sev g) <= 120.
Proof.
  intros Hs. unfold generateTreatmentTime.
  pose proof (uniform_int_range (30 + sev * 10) 120 g). lia.
Qed.

End GeneratorFacts.

(** ** The waiting room *)

Module WaitingRoomFacts.
Import WaitingRoom.

Lemma not_below_trans (a b c : Patient) :
  not_below a b -> not_below b c -> not_below a c.
Proof.
  unfold not_below, PatientComparator.
  destruct (Z.eqb_spec (severity a) (severity b)),
           (Z.eqb_spec (severity b) (severity c)),
           (Z.eqb_spec (severity a) (severity c)); simpl; lia.
Qed.

Lemma not_below_total (a b : Patient) :
  PatientComparator a b = true -> not_below b a.
Proof.
  unfold not_below, PatientComparator.
  destruct (Z.eqb_spec (severity a) (severity b)),
           (Z.eqb_spec (severity b) (severity a)); simpl; lia.
Qed.

Lemma outranks_comparator (p q : Patient) :
  outranks p q <-> PatientComparator q p = true.
Proof.
  unfold outranks, PatientComparator.
  destruct (Z.eqb_spec (severity q) (severity p)); simpl; lia.
Qed.

Lemma elem_of_push (p x : Patient) (w : t) :
  x ∈ push p w <-> x = p \/ x ∈ w.
Proof.
  induction w as [|y w IH]; simpl.
  - rewrite list_elem_of_singleton, elem_of_nil. tauto.
  - destruct (PatientComparator y p); rewrite !elem_of_cons;
      [tauto | rewrite IH; tauto].
Qed.

Lemma Forall_push (P : Patient -> Prop) (p : Patient) (w : t) :
  Forall P (push p w) <-> P p /\ Forall P w.
Proof.
  rewrite !Forall_forall. split.
  - intros Hall. split; [apply Hall, elem_of_push; by left|].
    intros x Hx. apply Hall, elem_of_push. by right.
  - intros [Hp Hw] x [-> | Hx]%elem_of_push; auto.
Qed.

Lemma Forall_pop (P : Patient -> Prop) (w : t) :
  Forall P w -> Forall P (pop w).
Proof. destruct 1; simpl; auto. Qed.

Lemma push_ordered (p : Patient) (w : t) : ordered w -> ordered (push p w).
Proof.
  unfold ordered. induction 1 as [|y w Hw IH Hy]; simpl.
  - repeat constructor.
  - destruct (PatientComparator y p) eqn:E.
    + constructor; [by constructor|].
      apply not_below_total in E. constructor; [done|].
      eapply Forall_impl; [exact Hy|].
      intros z Hz. by eapply not_below_trans.
    + constructor; [done|]. by apply Forall_push.
Qed.

Lemma pop_ordered (w : t) : ordered w -> ordered (pop w).
Proof. unfold ordered. destruct 1; simpl; [constructor | done]. Qed.

Lemma built_ordered (w : t) : built w -> ordered w.
Proof.
  induction 1; [constructor | by apply push_ordered | by apply pop_ordered].
Qed.

End WaitingRoomFacts.

(** ** The refresh loops *)

Lemma release_endTime (now : Z) (r : Resource) :
  endTime (release now r) = endTime r.
Proof. unfold release. by case_match. Qed.

Lemma release_available (now : Z) (r : Resource) :
  available (release now r) = available r || (endTime r <=? now).
Proof. unfold release. destruct r as [[] e]; simpl; [done|]. by case_match. Qed.

Lemma release_idem (now : Z) (r : Resource) :
  release now (release now r) = release now r.
Proof.
  unfold release. destruct r as [[] e]; simpl; [done|].
  destruct (e <=? now) eqn:E; simpl; [done | by rewrite E].
Qed.

Lemma refresh_pool_eq (now : Z) (pool : list Resource) (t : Z) :
  refresh_pool now pool t = (release now <$> pool, pool_min t pool).
Proof.
  revert t. induction pool as [|r pool IH]; intros t; simpl; [done|].
  rewrite IH, release_endTime. reflexivity.
Qed.

Lemma pool_min_le (t : Z) (pool : list Resource) :
  pool_min t pool <= t /\ Forall (fun r => pool_min t pool <= endTime r) pool.
Proof.
  revert t. induction pool as [|r pool IH]; intros t; simpl.
  - split; [lia | constructor].
  - destruct (IH (Z.min t (endTime r))) as [Ht Hp]. split; [lia|].
    constructor; [lia | done].
Qed.

Lemma pool_min_ge (m t : Z) (pool : list Resource) :
  m <= t -> Forall (fun r => m <= endTime r) pool -> m <= pool_min t pool.
Proof.
  revert t. induction pool as [|r pool IH]; intros t Ht Hp; simpl; [done|].
  inversion_clear Hp. apply IH; [lia | done].
Qed.

Lemma pool_min_release (now t : Z) (pool : list Resource) :
  pool_min t (release now <$> pool) = pool_min t pool.
Proof.
  revert t. induction pool as [|r pool IH]; intros t; simpl; [done|].
  by rewrite release_endTime, IH.
Qed.

(** ** The phases of one pass *)

Section Phases.
Context {RNG : Type} `{RandomSource RNG}.
Implicit Types s : State RNG.

Lemma advance_clock_eq s :
  advance_clock s =
  {| rng := rng s;
     doctors := release (currentTime s) <$> doctors s;
     beds := release (currentTime s) <$> beds s;
     waitingRoom := waitingRoom s;
     allPatients := allPatients s;
     nextPatientId := nextPatientId s;
     currentTime := Z.min (currentTime s + 1) (next_event s);
     nextArrivalTime := nextArrivalTime s;
     totalWaitTime := totalWaitTime s;
     totalPatients := totalPatients s;
     patientsTreated := patientsTreated s;
     doctorUtilization := doctorUtilization s;
     bedUtilization := bedUtilization s |}.
Proof.
  unfold advance_clock, next_event. rewrite !refresh_pool_eq. reflexivity.
Qed.

(** The clock step never passes the [endTime] of any unit, the arrival
    time at the head of the queue, or the horizon. *)
Lemma next_event_le s :
  next_event s <= SIMULATION_MINUTES /\
  (forall p, WaitingRoom.top (waitingRoom s) = Some p ->
             next_event s <= arrivalTime p) /\
  Forall (fun r => next_event s <= endTime r) (doctors s) /\
  Forall (fun r => next_event s <= endTime r) (beds s).
Proof.
  unfold next_event.
  set (t0 := match WaitingRoom.top (waitingRoom s) with
             | Some p => Z.min SIMULATION_MINUTES (arrivalTime p)
             | None => SIMULATION_MINUTES end).
  destruct (pool_min_le t0 (doctors s)) as [Hd0 Hd].
  destruct (pool_min_le (pool_min t0 (doctors s)) (beds s)) as [Hb0 Hb].
  assert (Ht0 : t0 <= SIMULATION_MINUTES).
  { subst t0. case_match; lia. }
  split_and!; [lia | | | done].
  - intros p Hp. subst t0. rewrite Hp in *. lia.
  - eapply Forall_impl; [exact Hd|]. simpl. intros; lia.
Qed.

Lemma next_event_ge s (m : Z) :
  m <= SIMULATION_MINUTES ->
  (forall p, WaitingRoom.top (waitingRoom s) = Some p -> m <= arrivalTime p) ->
  Forall (fun r => m <= endTime r) (doctors s) ->
  Forall (fun r => m <= endTime r) (beds s) ->
  m <= next_event s.
Proof.
  intros Hm Hp Hd Hb. unfold next_event.
  apply pool_min_ge; [|done]. apply pool_min_ge; [|done].
  destruct (WaitingRoom.top (waitingRoom s)) as [p|]; [|done].
  specialize (Hp p eq_refl). lia.
Qed.

(** The inner loop: a property kept by every admission holds when the
    loop is left, and the loop is left with no arrival due. *)
Lemma admit_arrivals_elim (P : State RNG -> Prop) (lambda : Q) :
  (forall s, P s -> arrival_due s = true -> P (admit_one lambda s)) ->
  forall fuel s s1,
    P s -> admit_arrivals fuel lambda s = Some s1 ->
    P s1 /\ arrival_due s1 = false.
Proof.
  intros Hstep. induction fuel as [|fuel IH]; intros s s1 HP; simpl;
    destruct (arrival_due s) eqn:E; try discriminate.
  - intros [= <-]. done.
  - intros Hs1. eapply IH; [|exact Hs1]. by apply Hstep.
  - intros [= <-]. done.
Qed.

Lemma arrival_due_false s :
  0 <= currentTime s <= SIMULATION_MINUTES ->
  arrival_due s = false -> arrivals_done s.
Proof.
  unfold arrival_due, arrivals_done. intros Ht E.
  apply andb_false_iff in E as [E | E]; lia.
Qed.

(** What an admission leaves alone. *)
Lemma admit_one_frame (lambda : Q) s :
  currentTime (admit_one lambda s) = currentTime s /\
  doctors (admit_one lambda s) = doctors s /\
  beds (admit_one lambda s) = beds s.
Proof.
  unfold admit_one.
  destruct (generateSeverity (rng s)) as [sev g1].
  destruct (generateTreatmentTime sev g1) as [treat g2].
  destruct (generateArrivalTime (nextArrivalTime s) lambda g2) as [arr g3].
  done.
Qed.

Lemma admit_arrivals_frame (fuel : nat) (lambda : Q) s s1 :
  admit_arrivals fuel lambda s = Some s1 ->
  currentTime s1 = currentTime s /\ doctors s1 = doctors s /\ beds s1 = beds s.
Proof.
  intros Hs1.
  eapply (admit_arrivals_elim
            (fun s' => currentTime s' = currentTime s /\
                       doctors s' = doctors s /\ beds s' = beds s));
    [| |exact Hs1]; [|done].
  intros s' Hs' _. destruct (admit_one_frame lambda s') as (-> & -> & ->).
  exact Hs'.
Qed.

(** The three outcomes of the allocation step. *)
Lemma allocate_cases s :
  allocate s = (s, None) \/
  exists p w i ri j rj,
    waitingRoom s = p :: w /\
    find_usable (Z.max (currentTime s) (arrivalTime p)) (doctors s) = Some (i, ri) /\
    find_usable (Z.max (currentTime s) (arrivalTime p)) (beds s) = Some (j, rj) /\
    allocate s =
      (fst (assign s p (Z.max (currentTime s) (arrivalTime p)) i j),
       Some (snd (assign s p (Z.max (currentTime s) (arrivalTime p)) i j))).
Proof.
  unfold allocate.
  destruct (waitingRoom s) as [|p w] eqn:Ew; simpl; [by left|].
  destruct (find_usable _ (doctors s)) as [[i ri]|] eqn:Ed; [|by left].
  destruct (find_usable _ (beds s)) as [[j rj]|] eqn:Eb; [|by left].
  right. exists p, w, i, ri, j, rj. done.
Qed.

Lemma find_usable_Some (t : Z) (pool : list Resource) (i : nat) (r : Resource) :
  find_usable t pool = Some (i, r) ->
  pool !! i = Some r /\ available r = true /\ endTime r <= t.
Proof.
  unfold find_usable. intros (Hi & Hu & _)%list_find_Some.
  unfold usable in Hu. apply andb_true_iff in Hu as [Ha He].
  split_and!; [done | done | lia].
Qed.

Lemma find_usable_None (t : Z) (pool : list Resource) :
  find_usable t pool = None ->
  Forall (fun r => available r = false \/ t < endTime r) pool.
Proof.
  unfold find_usable. intros Hn%list_find_None.
  eapply Forall_impl; [exact Hn|]. simpl. intros r Hr. unfold usable in Hr.
  destruct (available r); [right | by left].
  simpl in Hr. lia.
Qed.

End Phases.

(** ** The invariant of the loop head *)

Section Safety.
Context {RNG : Type} `{RandomSourceOk RNG}.
Implicit Types s : State RNG.

Lemma init_inv (numDoctors numBeds : nat) (g : RNG) :
  Inv (init numDoctors numBeds g).
Proof.
  unfold init.
  pose proof (generateArrivalTime_ge 0 BASE_LAMBDA g) as Ha.
  destruct (generateArrivalTime 0 BASE_LAMBDA g) as [arr g']. simpl in Ha.
  constructor; simpl.
  - unfold SIMULATION_MINUTES. lia.
  - apply Ha. discriminate.
  - apply Forall_replicate. split; simpl; lia.
  - apply Forall_replicate. split; simpl; lia.
  - constructor.
  - constructor.
  - constructor.
Qed.

Lemma admit_one_inv (lambda : Q) s :
  (0 <= lambda)%Q -> Inv s -> arrival_due s = true -> Inv (admit_one lambda s).
Proof.
  intros Hl [Ht Ha Hd Hb Hw Ho Hr] Hdue. unfold admit_one.
  pose proof (generateSeverity_range (rng s)) as Hsev.
  destruct (generateSeverity (rng s)) as [sev g1]. simpl in Hsev.
  pose proof (generateTreatmentTime_range sev g1 Hsev) as Htreat.
  destruct (generateTreatmentTime sev g1) as [treat g2]. simpl in Htreat.
  pose proof (generateArrivalTime_ge (nextArrivalTime s) lambda g2 Hl) as Harr.
  destruct (generateArrivalTime (nextArrivalTime s) lambda g2) as [arr g3].
  simpl in Harr.
  unfold arrival_due in Hdue. apply andb_true_iff in Hdue as [Hdue1 Hdue2].
  constructor; simpl; try done.
  - lia.
  - apply WaitingRoomFacts.Forall_push. split; [|done].
    unfold patient_ok. simpl. lia.
  - by apply WaitingRoomFacts.push_ordered.
  - apply Forall_app. split; [done|]. by repeat constructor.
Qed.

Lemma admit_arrivals_inv (fuel : nat) s s1 :
  Inv s -> admit_arrivals fuel (arrival_lambda s) s = Some s1 ->
  Inv s1 /\ arrivals_done s1.
Proof.
  intros Hs Hs1.
  destruct (admit_arrivals_elim Inv (arrival_lambda s)) with (2 := Hs) (3 := Hs1)
    as [Hinv Hdue].
  - intros s' Hs' Hdue'. apply admit_one_inv; [apply arrival_lambda_nonneg|done..].
  - split; [done|]. apply arrival_due_false; [apply Hinv | done].
Qed.

(** The bounds of the clock step under the invariant: the clock does not
    go back, and it stays where it is while a patient waits. *)
Lemma next_event_bounds s :
  Inv s ->
  currentTime s <= next_event s /\
  (waitingRoom s <> [] -> next_event s = currentTime s).
Proof.
  intros [Ht Ha Hd Hb Hw Ho Hr]. split.
  - apply next_event_ge; [lia | | |].
    + intros p Hp. destruct (waitingRoom s) as [|q w]; simplify_eq/=.
      inversion_clear Hw as [|? ? Hq _]. destruct Hq as [-> _]. lia.
    + eapply Forall_impl; [exact Hd|]. by intros r [? _].
    + eapply Forall_impl; [exact Hb|]. by intros r [? _].
  - intros Hne. destruct (waitingRoom s) as [|q w] eqn:Ew; [done|].
    destruct (next_event_le s) as (_ & Htop & _).
    specialize (Htop q). rewrite Ew in Htop. specialize (Htop eq_refl).
    inversion_clear Hw as [|? ? Hq _]. destruct Hq as [Hq _].
    enough (currentTime s <= next_event s) by lia.
    apply next_event_ge; [lia | | |].
    + intros p Hp. rewrite Ew in Hp. simplify_eq/=. lia.
    + eapply Forall_impl; [exact Hd|]. by intros r [? _].
    + eapply Forall_impl; [exact Hb|]. by intros r [? _].
Qed.

Lemma release_unit_ok (now now' : Z) (r : Resource) :
  unit_ok now r -> now <= now' -> now' <= endTime r ->
  unit_ok now' (release now r).
Proof.
  intros [Hlo Hav] Hnow Hend. unfold unit_ok.
  rewrite release_endTime, release_available. split; [done|].
  intros [Ha | Hr]%orb_true_iff; [specialize (Hav Ha)|]; lia.
Qed.

Lemma advance_clock_inv s :
  Inv s -> arrivals_done s -> Inv (advance_clock s).
Proof.
  intros Hs Hdone.
  destruct (next_event_bounds s Hs) as [Hge Hpin].
  destruct (next_event_le s) as (Hsim & _ & Hnd & Hnb).
  destruct Hs as [Ht Ha Hd Hb Hw Ho Hr].
  rewrite advance_clock_eq. constructor; simpl; try done.
  - lia.
  - unfold arrivals_done in Hdone. lia.
  - apply Forall_fmap. apply Forall_lookup. intros i r Hi. simpl.
    pose proof (Forall_lookup_1 _ _ _ _ Hd Hi) as Hu.
    pose proof (Forall_lookup_1 _ _ _ _ Hnd Hi) as Hn. simpl in Hn.
    apply release_unit_ok; [done | lia | lia].
  - apply Forall_fmap. apply Forall_lookup. intros i r Hi. simpl.
    pose proof (Forall_lookup_1 _ _ _ _ Hb Hi) as Hu.
    pose proof (Forall_lookup_1 _ _ _ _ Hnb Hi) as Hn. simpl in Hn.
    apply release_unit_ok; [done | lia | lia].
  - destruct (waitingRoom s) as [|q w] eqn:Ew; [constructor|].
    rewrite Hpin by done. by replace (Z.min _ _) with (currentTime s) by lia.
Qed.

Lemma allocate_inv s : Inv s -> Inv (fst (allocate s)).
Proof.
  intros Hs.
  destruct (allocate_cases s)
    as [-> | (p & w & i & ri & j & rj & Ew & Hi & Hj & ->)]; [done|].
  destruct Hs as [Ht Ha Hd Hb Hw Ho Hr]. rewrite Ew in Hw, Ho.
  inversion_clear Hw as [|? ? Hp Hw']. destruct Hp as (Hp1 & Hp2 & Hp3).
  constructor; simpl; try done.
  - apply Forall_insert; [done|]. split; simpl; [lia | done].
  - apply Forall_insert; [done|]. split; simpl; [lia | done].
  - by rewrite Ew.
  - rewrite Ew. simpl. by inversion Ho.
Qed.

Lemma tick_inv (fuel : nat) s s' ev :
  Inv s -> tick fuel s = Some (s', ev) -> Inv s'.
Proof.
  unfold tick. intros Hs Ht.
  destruct (admit_arrivals fuel (arrival_lambda s) s) as [s1|] eqn:E1; [|done].
  destruct (admit_arrivals_inv _ _ _ Hs E1) as [Hs1 Hdone].
  pose proof (allocate_inv _ (advance_clock_inv _ Hs1 Hdone)) as Hs'.
  by simplify_eq/=; destruct (allocate _); simplify_eq/=.
Qed.

Lemma run_inv (numDoctors numBeds : nat) (g : RNG) s log :
  run (init numDoctors numBeds g) s log -> Inv s.
Proof.
  induction 1 as [|s log fuel s' ev _ IH _ Ht]; [apply init_inv|].
  by eapply tick_inv.
Qed.

End Safety.

(** ** The acquisitions of a run *)

Lemma covers_release (now : Z) (pool : list Resource) (i : nat) (t : Z) :
  covers pool i t -> covers (release now <$> pool) i t.
Proof.
  intros (r & Hr & Ht). exists (release now r).
  by rewrite list_lookup_fmap, Hr, release_endTime.
Qed.

Lemma covers_insert (pool : list Resource) (i k : nat) (r : Resource) (t u : Z) :
  pool !! i = Some r -> endTime r <= u ->
  covers pool k t -> covers (<[i := mkResource false u]> pool) k t.
Proof.
  intros Hi Hu (r' & Hk & Ht). destruct (decide (i = k)) as [-> | Hne].
  - exists (mkResource false u). split.
    + apply list_lookup_insert_eq. by eapply lookup_lt_Some.
    + simplify_eq/=. lia.
  - exists r'. by rewrite list_lookup_insert_ne.
Qed.

Lemma covers_insert_new (pool : list Resource) (i : nat) (r : Resource) (u : Z) :
  pool !! i = Some r -> covers (<[i := mkResource false u]> pool) i u.
Proof.
  intros Hi. exists (mkResource false u). split; [|done].
  apply list_lookup_insert_eq. by eapply lookup_lt_Some.
Qed.

Lemma disjoint_log_snoc (log : list Assignment) (a : Assignment) :
  disjoint_log log ->
  Forall (fun b => (a_doctor b = a_doctor a -> a_until b <= a_time a) /\
                   (a_bed b = a_bed a -> a_until b <= a_time a)) log ->
  disjoint_log (log ++ [a]).
Proof.
  intros Hlog Hnew i j x y Hij Hx Hy.
  apply lookup_snoc_Some in Hy as [[Hj Hy] | [Hj ->]].
  - apply lookup_snoc_Some in Hx as [[_ Hx] | [Hi _]]; [|lia].
    exact (Hlog i j x y Hij Hx Hy).
  - apply lookup_snoc_Some in Hx as [[_ Hx] | [Hi _]]; [|lia].
    exact (Forall_lookup_1 _ _ _ _ Hnew Hx).
Qed.

Section Booking.
Context {RNG : Type} `{RandomSourceOk RNG}.
Implicit Types s : State RNG.

Lemma advance_clock_log s log :
  LogInv s log -> LogInv (advance_clock s) log.
Proof.
  intros [Hd Hb Hdis Hsh]. rewrite advance_clock_eq. constructor; simpl; [| |done..].
  - eapply Forall_impl; [exact Hd|]. intros a. apply covers_release.
  - eapply Forall_impl; [exact Hb|]. intros a. apply covers_release.
Qed.

Lemma allocate_log s log :
  Inv s -> LogInv s log ->
  LogInv (fst (allocate s)) (log ++ option_list (snd (allocate s))).
Proof.
  intros Hs Hlog.
  destruct (allocate_cases s)
    as [-> | (p & w & i & ri & j & rj & Ew & Hi & Hj & ->)].
  { simpl. by rewrite app_nil_r. }
  apply find_usable_Some in Hi as (Hi & _ & Hie).
  apply find_usable_Some in Hj as (Hj & _ & Hje).
  destruct Hs as [_ _ _ _ Hw _ _]. rewrite Ew in Hw.
  inversion_clear Hw as [|? ? Hp _]. destruct Hp as (Hp1 & Hp2 & Hp3).
  destruct Hlog as [Hd Hb Hdis Hsh].
  set (t := Z.max (currentTime s) (arrivalTime p)) in *.
  constructor; simpl.
  - apply Forall_app. split.
    + eapply Forall_impl; [exact Hd|]. intros a. simpl.
      apply covers_insert with ri; [done | lia].
    + repeat constructor. simpl. by eapply covers_insert_new.
  - apply Forall_app. split.
    + eapply Forall_impl; [exact Hb|]. intros a. simpl.
      apply covers_insert with rj; [done | lia].
    + repeat constructor. simpl. by eapply covers_insert_new.
  - apply disjoint_log_snoc; [done|]. simpl.
    apply Forall_lookup. intros k a Hk.
    pose proof (Forall_lookup_1 _ _ _ _ Hd Hk) as (rd & Hrd & Hrd').
    pose proof (Forall_lookup_1 _ _ _ _ Hb Hk) as (rb & Hrb & Hrb').
    simpl in *. split; intros E; rewrite E in *; simplify_eq; lia.
  - apply Forall_app. split; [done|]. repeat constructor; simpl; lia.
Qed.

Lemma tick_log (fuel : nat) s log s' ev :
  Inv s -> LogInv s log -> tick fuel s = Some (s', ev) ->
  LogInv s' (log ++ option_list ev).
Proof.
  unfold tick. intros Hs Hlog Ht.
  destruct (admit_arrivals fuel (arrival_lambda s) s) as [s1|] eqn:E1; [|done].
  destruct (admit_arrivals_inv _ _ _ Hs E1) as [Hs1 Hdone].
  destruct (admit_arrivals_frame _ _ _ _ E1) as (_ & Ed & Eb).
  assert (Hlog1 : LogInv s1 log).
  { destruct Hlog. constructor; by rewrite ?Ed, ?Eb. }
  pose proof (allocate_log _ _ (advance_clock_inv _ Hs1 Hdone)
                (advance_clock_log _ _ Hlog1)) as Hl.
  by simplify_eq/=; destruct (allocate _); simplify_eq/=.
Qed.

Lemma run_log (numDoctors numBeds : nat) (g : RNG) s log :
  run (init numDoctors numBeds g) s log -> LogInv s log.
Proof.
  induction 1 as [|s log fuel s' ev Hrun IH _ Ht].
  - constructor; [constructor | constructor | | constructor].
    intros ? ? ? ? _ Hx. by rewrite lookup_nil in Hx.
  - eapply tick_log; [|done..]. by eapply run_inv.
Qed.

End Booking.

(** ** Counting units *)

Lemma count_replicate (f : Resource -> bool) (n : nat) (r : Resource) :
  count f (replicate n r) = if f r then n else O.
Proof.
  induction n as [|n IH]; simpl; [by destruct (f r)|].
  rewrite IH. by destruct (f r).
Qed.

Lemma count_fmap (f : Resource -> bool) (g : Resource -> Resource)
    (pool : list Resource) :
  (forall r, f (g r) = f r) -> count f (g <$> pool) = count f pool.
Proof.
  intros Hfg. induction pool as [|r pool IH]; [done|].
  rewrite fmap_cons. simpl. by rewrite Hfg, IH.
Qed.

Lemma count_insert_drop (f : Resource -> bool) (pool : list Resource)
    (i : nat) (x y : Resource) :
  pool !! i = Some x -> f x = true -> f y = false ->
  S (count f (<[i := y]> pool)) = count f pool.
Proof.
  revert i. induction pool as [|r pool IH]; intros [|i] Hi Hx Hy;
    simplify_eq/=.
  - by rewrite Hx, Hy.
  - specialize (IH i Hi Hx Hy). destruct (f r); lia.
Qed.

Lemma count_insert_ge (f : Resource -> bool) (pool : list Resource)
    (i : nat) (y : Resource) :
  (count f pool <= S (count f (<[i := y]> pool)))%nat.
Proof.
  revert i. induction pool as [|r pool IH]; intros [|i]; simpl; try lia.
  - destruct (f r), (f y); lia.
  - specialize (IH i). destruct (f r); lia.
Qed.

Lemma count_pos_elem (f : Resource -> bool) (pool : list Resource) :
  (0 < count f pool)%nat -> exists i r, pool !! i = Some r /\ f r = true.
Proof.
  induction pool as [|r pool IH]; simpl; [lia|].
  destruct (f r) eqn:E.
  - intros _. by exists O, r.
  - intros (i & r' & Hi & Hr')%IH. by exists (S i), r'.
Qed.

(** ** Pools with fewer doctors than beds *)

Section Pinned.
Context {RNG : Type} `{RandomSourceOk RNG}.
Implicit Types s : State RNG.

Lemma init_stuck (numDoctors numBeds : nat) (g : RNG) :
  (numDoctors < numBeds)%nat -> Stuck (init numDoctors numBeds g).
Proof.
  intros Hlt. unfold init.
  destruct (generateArrivalTime 0 BASE_LAMBDA g) as [arr g'].
  constructor; simpl.
  - done.
  - by apply Forall_replicate.
  - by rewrite !count_replicate.
Qed.

Lemma release_busy_doctors (pool : list Resource) :
  Forall (fun r => available r = false -> 0 < endTime r) pool ->
  release 0 <$> pool = pool.
Proof.
  induction 1 as [|r pool Hr _ IH]; [done|].
  rewrite fmap_cons, IH. f_equal. unfold release.
  destruct (available r); simpl; [done|].
  specialize (Hr eq_refl). case_match; [lia | done].
Qed.

Lemma advance_clock_stuck s :
  Inv s -> Stuck s -> Stuck (advance_clock s).
Proof.
  intros Hs [Ht Hbusy Hcount].
  destruct (next_event_bounds s Hs) as [Hge _].
  destruct (next_event_le s) as (_ & _ & _ & Hnb).
  rewrite advance_clock_eq. constructor; simpl; rewrite Ht in *.
  - destruct (count_pos_elem never_acquired (beds s)) as (i & r & Hi & Hr);
      [lia|].
    pose proof (Forall_lookup_1 _ _ _ _ Hnb Hi) as Hn. simpl in Hn.
    unfold never_acquired in Hr. lia.
  - by rewrite release_busy_doctors.
  - rewrite release_busy_doctors by done.
    rewrite (count_fmap never_acquired); [done|].
    intros r. unfold never_acquired. by rewrite release_endTime.
Qed.

Lemma allocate_stuck s :
  Inv s -> Stuck s -> Stuck (fst (allocate s)).
Proof.
  intros Hs Hst.
  destruct (allocate_cases s)
    as [-> | (p & w & i & ri & j & rj & Ew & Hi & Hj & ->)]; [done|].
  apply find_usable_Some in Hi as (Hi & Hia & _).
  destruct Hs as [_ _ _ _ Hw _ _]. rewrite Ew in Hw.
  inversion_clear Hw as [|? ? Hp _]. destruct Hp as (Hp1 & Hp2 & Hp3).
  destruct Hst as [Ht Hbusy Hcount].
  constructor; simpl.
  - done.
  - apply Forall_insert; [done|]. simpl. lia.
  - pose proof (count_insert_drop available (doctors s) i ri
                  (mkResource false
                     (Z.max (currentTime s) (arrivalTime p) + treatmentTime p))
                  Hi Hia eq_refl) as Hdrop.
    pose proof (count_insert_ge never_acquired (beds s) j
                  (mkResource false
                     (Z.max (currentTime s) (arrivalTime p) + treatmentTime p)))
      as Hge.
    lia.
Qed.

Lemma admit_arrivals_stuck (fuel : nat) (lambda : Q) s s1 :
  Stuck s -> admit_arrivals fuel lambda s = Some s1 -> Stuck s1.
Proof.
  intros Hst E1.
  destruct (admit_arrivals_frame _ _ _ _ E1) as (Et & Ed & Eb).
  destruct Hst. constructor; by rewrite ?Et, ?Ed, ?Eb.
Qed.

Lemma tick_stuck (fuel : nat) s s' ev :
  Inv s -> Stuck s -> tick fuel s = Some (s', ev) -> Stuck s'.
Proof.
  unfold tick. intros Hs Hst Ht.
  destruct (admit_arrivals fuel (arrival_lambda s) s) as [s1|] eqn:E1; [|done].
  destruct (admit_arrivals_inv _ _ _ Hs E1) as [Hs1 Hdone].
  pose proof (admit_arrivals_stuck _ _ _ _ Hst E1) as Hst1.
  pose proof (advance_clock_inv _ Hs1 Hdone) as Hs2.
  pose proof (allocate_stuck _ Hs2 (advance_clock_stuck _ Hs1 Hst1)) as Hs'.
  by simplify_eq/=; destruct (allocate _); simplify_eq/=.
Qed.

Lemma run_stuck (numDoctors numBeds : nat) (g : RNG) s log :
  (numDoctors < numBeds)%nat ->
  run (init numDoctors numBeds g) s log -> Stuck s.
Proof.
  intros Hlt. induction 1 as [|s log fuel s' ev Hrun IH _ Ht].
  - by apply init_stuck.
  - eapply tick_stuck; [|done..]. by eapply run_inv.
Qed.

End Pinned.

(** ** The scripted source *)

Module ScriptedFacts.
Import Scripted.

#[global] Instance source_ok : RandomSourceOk tape.
Proof.
  constructor.
  - intros g. simpl. unfold draw_exponential.
    destruct (exp_tape g) as [|[n d] rest]; simpl; [discriminate|].
    unfold Qle. simpl. lia.
  - intros a b g Hab. simpl. unfold draw_uniform.
    destruct (int_tape g) as [|z rest]; simpl; [lia|].
    pose proof (Z.mod_pos_bound z (b - a + 1)). lia.
Qed.

Lemma iterate_run (n : nat) (s0 s : State tape) (log : list Assignment) :
  iterate n s0 = Some (s, log) -> run s0 s log.
Proof.
  revert s log. induction n as [|n IH]; intros s log; simpl.
  - intros [= <- <-]. constructor.
  - destruct (iterate n s0) as [[s' log']|]; [|done].
    destruct (loop_cond s') eqn:Ec; [|done].
    destruct (tick 8 s') as [[s'' ev]|] eqn:Et; [|done].
    intros [= <- <-]. eapply run_tick; [by apply IH | done | done].
Qed.

(** With the first arrival after minute 0, a pass of the loop changes
    nothing. *)
Lemma late_arrival_fixpoint :
  tick 8 (init NUM_DOCTORS NUM_BEDS late_arrival)
  = Some (init NUM_DOCTORS NUM_BEDS late_arrival, None).
Proof. reflexivity. Qed.

Lemma late_arrival_forever (n : nat) :
  iterate n (init NUM_DOCTORS NUM_BEDS late_arrival)
  = Some (init NUM_DOCTORS NUM_BEDS late_arrival, []).
Proof.
  induction n as [|n IH]; [done|].
  cbn [iterate]. rewrite IH.
  change (loop_cond (init NUM_DOCTORS NUM_BEDS late_arrival)) with true.
  cbv iota. by rewrite late_arrival_fixpoint.
Qed.

End ScriptedFacts.

(** * The claims *)

Section Claims.
Context {RNG : Type} `{RandomSourceOk RNG}.
Implicit Types s : State RNG.

Lemma allocate_currentTime s : currentTime (fst (allocate s)) = currentTime s.
Proof.
  by destruct (allocate_cases s)
    as [-> | (p & w & i & ri & j & rj & _ & _ & _ & ->)].
Qed.


Lemma tick_currentTime (fuel : nat) s s' ev :
  Inv s -> tick fuel s = Some (s', ev) -> currentTime s <= currentTime s'.
Proof.
  unfold tick. intros Hs Ht.
  destruct (admit_arrivals fuel (arrival_lambda s) s) as [s1|] eqn:E1; [|done].
  destruct (admit_arrivals_inv _ _ _ Hs E1) as [Hs1 _].
  destruct (admit_arrivals_frame _ _ _ _ E1) as (Et & _ & _).
  destruct (next_event_bounds s1 Hs1) as [Hge _].
  pose proof (allocate_currentTime (advance_clock s1)) as Ea.
  rewrite advance_clock_eq in Ea at 2. simpl in Ea.
  destruct (allocate (advance_clock s1)) as [s2 ev2]. simplify_eq/=. lia.
Qed.

(** C1. With fewer doctors than beds (the program has 5 and 10) the loop
    of [main] is never left: at the head of every pass of every run the
    clock is still at 0, so the loop condition holds. The run therefore
    does not terminate, whatever the random draws are. *)
Theorem main_loop_never_exits (numDoctors numBeds : nat) (g : RNG) s log :
  (numDoctors < numBeds)%nat ->
  run (init numDoctors numBeds g) s log ->
  currentTime s = 0 /\ loop_cond s = true.
Proof.
  intros Hlt Hrun. destruct (run_stuck _ _ _ _ _ Hlt Hrun) as [Ht _ _].
  split; [done|]. unfold loop_cond. by rewrite Ht.
Qed.

(** C2. At the head of every pass the clock is at or below the [endTime]
    of every doctor and every bed; hence it is 0 as long as some unit
    still has [endTime] 0. From any state the clock step goes to
    [min (currentTime + 1) nextEventTime], which is at or below every
    unit's [endTime], idle units included, and a pass never moves the
    clock back. *)
Theorem clock_below_every_endTime (numDoctors numBeds : nat) (g : RNG) s log :
  run (init numDoctors numBeds g) s log ->
  (forall r, r ∈ doctors s ++ beds s -> currentTime s <= endTime r) /\
  ((exists r, r ∈ doctors s ++ beds s /\ endTime r = 0) -> currentTime s = 0) /\
  (forall x : State RNG,
     currentTime (advance_clock x) = Z.min (currentTime x + 1) (next_event x) /\
     forall r, r ∈ doctors (advance_clock x) ++ beds (advance_clock x) ->
               currentTime (advance_clock x) <= endTime r) /\
  (forall fuel s' ev, tick fuel s = Some (s', ev) ->
                      currentTime s <= currentTime s').
Proof.
  intros Hrun. pose proof (run_inv _ _ _ _ _ Hrun) as Hs.
  assert (Hle : forall r, r ∈ doctors s ++ beds s -> currentTime s <= endTime r).
  { intros r [Hr | Hr]%elem_of_app.
    - by apply (proj1 (Forall_forall _ _) (inv_doctors _ Hs)) in Hr as [? _].
    - by apply (proj1 (Forall_forall _ _) (inv_beds _ Hs)) in Hr as [? _]. }
  split_and!.
  - exact Hle.
  - intros (r & Hr & Hz). specialize (Hle r Hr).
    pose proof (inv_time _ Hs). lia.
  - intros x. rewrite advance_clock_eq. simpl. split; [done|].
    destruct (next_event_le x) as (_ & _ & Hd & Hb).
    intros r [Hr | Hr]%elem_of_app;
      apply list_elem_of_fmap in Hr as (r0 & -> & Hr0);
      rewrite release_endTime.
    + apply (proj1 (Forall_forall _ _) Hd) in Hr0. simpl in Hr0. lia.
    + apply (proj1 (Forall_forall _ _) Hb) in Hr0. simpl in Hr0. lia.
  - intros fuel s' ev Ht. by eapply tick_currentTime.
Qed.

(** C4. In every pass, once the two refresh loops have run, every unit of
    both pools has [available] equal to [endTime <= currentTime] for the
    time at which the pass started; whenever a patient waits, so that an
    allocation decision is made, the same holds for the time the clock
    step has set, which is then the time the pass started with; and with
    fewer doctors than beds, as in the program, it holds for the time the
    clock step has set in every pass. *)
Theorem availability_refreshed (numDoctors numBeds : nat) (g : RNG)
    s log (fuel : nat) (s1 : State RNG) :
  run (init numDoctors numBeds g) s log ->
  admit_arrivals fuel (arrival_lambda s) s = Some s1 ->
  (forall r, r ∈ doctors (advance_clock s1) ++ beds (advance_clock s1) ->
             available r = (endTime r <=? currentTime s)) /\
  (WaitingRoom.empty (waitingRoom (advance_clock s1)) = false ->
   forall r, r ∈ doctors (advance_clock s1) ++ beds (advance_clock s1) ->
             available r = (endTime r <=? currentTime (advance_clock s1))) /\
  ((numDoctors < numBeds)%nat ->
   forall r, r ∈ doctors (advance_clock s1) ++ beds (advance_clock s1) ->
             available r = (endTime r <=? currentTime (advance_clock s1))).
Proof.
  intros Hrun E1. pose proof (run_inv _ _ _ _ _ Hrun) as Hs.
  destruct (admit_arrivals_inv _ _ _ Hs E1) as [Hs1 _].
  destruct (admit_arrivals_frame _ _ _ _ E1) as (Et & _ & _).
  assert (Hall : forall r,
    r ∈ doctors (advance_clock s1) ++ beds (advance_clock s1) ->
    available r = (endTime r <=? currentTime s1)).
  { rewrite advance_clock_eq. simpl. intros r Hr.
    assert (exists r0, r = release (currentTime s1) r0
                       /\ unit_ok (currentTime s1) r0) as (r0 & -> & Hlo & Hav).
    { apply elem_of_app in Hr as [Hr | Hr];
        apply list_elem_of_fmap in Hr as (r0 & -> & Hr0); exists r0;
        (split; [done|]).
      - by apply (proj1 (Forall_forall _ _) (inv_doctors _ Hs1)).
      - by apply (proj1 (Forall_forall _ _) (inv_beds _ Hs1)). }
    rewrite release_available, release_endTime.
    destruct (Z.leb_spec (endTime r0) (currentTime s1)) as [Hle | Hgt].
    - by rewrite orb_true_r.
    - destruct (available r0); [specialize (Hav eq_refl); lia | done]. }
  split_and!.
  - intros r Hr. rewrite <- Et. by apply Hall.
  - intros Hne r Hr. rewrite (Hall r Hr). f_equal.
    destruct (next_event_bounds s1 Hs1) as [_ Hpin].
    rewrite advance_clock_eq in Hne |- *. simpl in *.
    rewrite Hpin; [lia|]. by destruct (waitingRoom s1).
  - intros Hlt r Hr. rewrite (Hall r Hr). f_equal.
    pose proof (run_stuck _ _ _ _ _ Hlt Hrun) as Hst.
    pose proof (admit_arrivals_stuck _ _ _ _ Hst E1) as Hst1.
    pose proof (advance_clock_stuck _ Hs1 Hst1) as Hst2.
    by rewrite (stuck_time _ Hst1), (stuck_time _ Hst2).
Qed.

(** C6. Over a run, the busy intervals of one unit do not overlap: each
    acquisition books its doctor and its bed from its [assignTime] until
    [assignTime + treatmentTime] (the first minute at which the unit is
    free again), and for two acquisitions of the same doctor, or of the
    same bed, one interval ends at or before the start of the other. *)
Theorem no_double_booking (numDoctors numBeds : nat) (g : RNG) s log :
  run (init numDoctors numBeds g) s log ->
  Forall (fun a => a_until a = a_time a + treatmentTime (a_patient a)
                   /\ a_time a < a_until a) log /\
  forall i j a b,
    i <> j -> log !! i = Some a -> log !! j = Some b ->
    a_doctor a = a_doctor b \/ a_bed a = a_bed b ->
    a_until a <= a_time b \/ a_until b <= a_time a.
Proof.
  intros Hrun. destruct (run_log _ _ _ _ _ Hrun) as [_ _ Hdis Hsh]. split.
  - eapply Forall_impl; [exact Hsh|]. simpl. intros a. lia.
  - intros i j a b Hij Hi Hj Hsame.
    destruct (Nat.lt_total i j) as [Hlt | [-> | Hgt]]; [| done |].
    + left. destruct (Hdis i j a b Hlt Hi Hj) as [Hd Hb].
      destruct Hsame; auto.
    + right. destruct (Hdis j i b a Hgt Hj Hi) as [Hd Hb].
      destruct Hsame; auto.
Qed.

End Claims.

Section GeneratorClaims.
Context {RNG : Type} `{RandomSource RNG}.

(** The code scales the unit-rate variate by [60 * lambdaPerHour]
    minutes, an exponential inter-arrival time of mean
    [lambdaPerHour] hours. *)
Lemma generateArrivalTime_scale (t : Z) (lambdaPerHour : Q) (g : RNG) :
  ~ (lambdaPerHour == 0)%Q ->
  fst (generateArrivalTime t lambdaPerHour g)
  = t + Qtrunc (fst (std_exponential g) * (60 * lambdaPerHour))%Q.
Proof.
  intros Hl. unfold generateArrivalTime, exponential_distribution.
  destruct (std_exponential g) as [x g']. simpl. f_equal.
  apply Qtrunc_proper. field. exact Hl.
Qed.

End GeneratorClaims.

(** C3. [generateArrivalTime] does not draw from the distribution that the
    claim describes. With current time 0, [lambdaPerHour = 5] and the
    unit-rate variate 1, the code returns minute 300 (five hours: the
    distribution is built with rate [1 / 5], of mean 5 hours), where an
    inter-arrival time of mean [60 / 5] minutes gives minute 12. *)
Theorem generateArrivalTime_rate_inverted :
  fst (generateArrivalTime 0 5 Scripted.late_arrival) = 300 /\
  fst (spec_generateArrivalTime 0 5 Scripted.late_arrival) = 12 /\
  fst (exponential_distribution (1 / 5) Scripted.late_arrival) = 5%Q.
Proof. by vm_compute. Qed.

(** With other pool sizes than the program's the clock can move. With
    one doctor and one bed, a first patient at minute 0 treated for 40
    minutes and a second patient arriving at minute 40, the second
    patient is assigned at minute 40 (pass 42), and the record kept for it
    in [allPatients] is the one written at arrival, with
    [startTreatmentTime] and [waitTime] 0: the update went to the copy
    inside the queue. *)
Lemma one_bed_record_not_updated :
  exists (s : State Scripted.tape) (log : list Assignment)
         (a : Assignment) (p : Patient),
    Scripted.iterate 42 (init 1 1 Scripted.two_visits) = Some (s, log) /\
    patientsTreated s = 2 /\
    log !! 1%nat = Some a /\ allPatients s !! 1%nat = Some p /\
    id p = 2 /\ id (a_patient a) = 2 /\
    a_time a = 40 /\ startTreatmentTime (a_patient a) = 40 /\
    arrivalTime p = 40 /\ startTreatmentTime p = 0 /\ waitTime p = 0 /\
    waitTime p <> startTreatmentTime p - arrivalTime p /\
    startTreatmentTime p <> a_time a.
Proof.
  eexists _, _, _, _. split; [by vm_compute|]. by vm_compute.
Qed.

Section RetainedRecords.
Context {RNG : Type} `{RandomSourceOk RNG}.

(** For any pool sizes and any draws, no record of [allPatients] is ever
    written after its creation. *)
Lemma retained_records_untouched (numDoctors numBeds : nat) (g : RNG)
    (s : State RNG) log :
  run (init numDoctors numBeds g) s log ->
  Forall (fun p => waitTime p = 0 /\ startTreatmentTime p = 0) (allPatients s).
Proof. intros Hrun. exact (inv_retained _ (run_inv _ _ _ _ _ Hrun)). Qed.

End RetainedRecords.

(** In a queue kept in pop order, a patient that another queued patient
    outranks is not at the top. *)
Lemma top_not_outranked (w : WaitingRoom.t) (p q : Patient) :
  WaitingRoom.ordered w -> p ∈ w -> q ∈ w -> WaitingRoom.outranks p q ->
  exists t, WaitingRoom.top w = Some t /\ t <> q /\
            q ∈ WaitingRoom.pop w /\ (t = p \/ p ∈ WaitingRoom.pop w).
Proof.
  intros Hw Hp Hq Hpq%WaitingRoomFacts.outranks_comparator.
  destruct Hw as [|t w Hw Ht]; [by apply elem_of_nil in Hp|].
  exists t. simpl.
  assert (Htq : t <> q).
  { intros ->. apply elem_of_cons in Hp as [-> | Hp].
    - unfold PatientComparator in Hpq. destruct (_ =? _) eqn:E; simpl in *; lia.
    - apply (proj1 (Forall_forall _ _) Ht) in Hp.
      unfold WaitingRoom.not_below in Hp. congruence. }
  split_and!; [done | done | |].
  - apply elem_of_cons in Hq as [-> | Hq]; done.
  - apply elem_of_cons in Hp as [-> | Hp]; auto.
Qed.

(** C7. In a waiting room that holds both [p] and [q], where [p] has the
    strictly higher severity, or the same severity and the strictly
    earlier arrival, the patient at the top is not [q]: the next pop
    removes [p] or leaves both in the queue, so [q] is not dequeued
    before [p]. *)
Theorem pop_order (w : WaitingRoom.t) (p q : Patient) :
  WaitingRoom.built w -> p ∈ w -> q ∈ w -> WaitingRoom.outranks p q ->
  exists t, WaitingRoom.top w = Some t /\ t <> q /\
            q ∈ WaitingRoom.pop w /\ (t = p \/ p ∈ WaitingRoom.pop w).
Proof.
  intros Hw. apply top_not_outranked. by apply WaitingRoomFacts.built_ordered.
Qed.

Section WaitingRoomOfRun.
Context {RNG : Type} `{RandomSourceOk RNG}.

(** The same for the waiting room of the simulation at the head of any
    pass. *)
Lemma run_pop_order (numDoctors numBeds : nat) (g : RNG)
    (s : State RNG) log (p q : Patient) :
  run (init numDoctors numBeds g) s log ->
  p ∈ waitingRoom s -> q ∈ waitingRoom s -> WaitingRoom.outranks p q ->
  exists t, WaitingRoom.top (waitingRoom s) = Some t /\ t <> q /\
            q ∈ WaitingRoom.pop (waitingRoom s) /\
            (t = p \/ p ∈ WaitingRoom.pop (waitingRoom s)).
Proof.
  intros Hrun. apply top_not_outranked.
  exact (inv_ordered _ (run_inv _ _ _ _ _ Hrun)).
Qed.

End WaitingRoomOfRun.

Section AllocationClaims.
Context {RNG : Type} `{RandomSource RNG}.
Implicit Types s : State RNG.

(** C8. With [assignTime = max currentTime arrivalTime] for the patient
    at the top: an allocation is made only if [find_if] finds a doctor
    and a bed that are both available with [endTime <= assignTime];
    when a doctor is found and no bed is, the allocation step returns
    the state it was given; and a step that allocates nothing changes
    nothing. *)
Theorem allocate_both_or_nothing s (p : Patient) :
  WaitingRoom.top (waitingRoom s) = Some p ->
  (forall s' a, allocate s = (s', Some a) ->
     a_time a = Z.max (currentTime s) (arrivalTime p) /\
     exists rd rb,
       find_usable (a_time a) (doctors s) = Some (a_doctor a, rd) /\
       find_usable (a_time a) (beds s) = Some (a_bed a, rb) /\
       usable (a_time a) rd = true /\ usable (a_time a) rb = true) /\
  (forall i rd,
     find_usable (Z.max (currentTime s) (arrivalTime p)) (doctors s)
       = Some (i, rd) ->
     find_usable (Z.max (currentTime s) (arrivalTime p)) (beds s) = None ->
     allocate s = (s, None)) /\
  (forall s', allocate s = (s', None) -> s' = s).
Proof.
  intros Htop. split_and!.
  - intros s' a Ha.
    destruct (allocate_cases s)
      as [E | (p' & w & i & ri & j & rj & Ew & Hi & Hj & E)];
      rewrite E in Ha; [done|].
    unfold WaitingRoom.top in Htop. rewrite Ew in Htop. simplify_eq/=.
    split; [done|]. exists ri, rj. split_and!; [done | done | |].
    + unfold find_usable in Hi. by apply list_find_Some in Hi as (_ & ? & _).
    + unfold find_usable in Hj. by apply list_find_Some in Hj as (_ & ? & _).
  - intros i rd Hd Hb. unfold allocate. by rewrite Htop, Hd, Hb.
  - intros s' Ha.
    destruct (allocate_cases s)
      as [E | (p' & w & i & ri & j & rj & Ew & Hi & Hj & E)];
      rewrite E in Ha; by simplify_eq/=.
Qed.

(** C9. After the loop: the average wait is [totalWaitTime /
    patientsTreated] when a patient was treated and 0 otherwise; the
    utilization of a pool is its accumulator divided by
    [poolSize * SIMULATION_MINUTES] when the pool has a unit and 0
    otherwise. *)
Theorem final_metrics (numDoctors numBeds : nat) s :
  (0 < patientsTreated s ->
   avgWaitTime (finalize numDoctors numBeds s)
   = (inject_Z (totalWaitTime s) / inject_Z (patientsTreated s))%Q) /\
  (patientsTreated s <= 0 ->
   avgWaitTime (finalize numDoctors numBeds s) = 0%Q) /\
  ((0 < numDoctors)%nat ->
   sum_doctorUtilization (finalize numDoctors numBeds s)
   = (inject_Z (doctorUtilization s)
      / inject_Z (Z.of_nat numDoctors * SIMULATION_MINUTES))%Q) /\
  (numDoctors = O ->
   sum_doctorUtilization (finalize numDoctors numBeds s) = 0%Q) /\
  ((0 < numBeds)%nat ->
   sum_bedUtilization (finalize numDoctors numBeds s)
   = (inject_Z (bedUtilization s)
      / inject_Z (Z.of_nat numBeds * SIMULATION_MINUTES))%Q) /\
  (numBeds = O ->
   sum_bedUtilization (finalize numDoctors numBeds s) = 0%Q).
Proof.
  unfold finalize. simpl. split_and!.
  - intros Hp. by destruct (Z.ltb_spec 0 (patientsTreated s)); [|lia].
  - intros Hp. by destruct (Z.ltb_spec 0 (patientsTreated s)); [lia|].
  - intros Hn. by destruct (Z.ltb_spec 0 (Z.of_nat numDoctors)); [|lia].
  - by intros ->.
  - intros Hn. by destruct (Z.ltb_spec 0 (Z.of_nat numBeds)); [|lia].
  - by intros ->.
Qed.

End AllocationClaims.

(** C10. Running the refresh loops a second time at the same
    [currentTime] leaves both pools as the first run left them, and finds
    the same running minimum when started from the same value. *)
Theorem refresh_twice (now : Z) (doctors beds : list Resource) (t u : Z) :
  fst (refresh_pool now (fst (refresh_pool now doctors t)) u)
  = fst (refresh_pool now doctors t) /\
  fst (refresh_pool now (fst (refresh_pool now beds t)) u)
  = fst (refresh_pool now beds t) /\
  snd (refresh_pool now (fst (refresh_pool now doctors t)) t)
  = snd (refresh_pool now doctors t).
Proof.
  rewrite !refresh_pool_eq. simpl. rewrite <- !list_fmap_compose.
  split_and!.
  - apply list_fmap_ext. intros i r _. apply release_idem.
  - apply list_fmap_ext. intros i r _. apply release_idem.
  - apply pool_min_release.
Qed.

(** ** The claims on sample runs *)

Module Samples.
Import Scripted ScriptedFacts.

Lemma busy_ward_run :
  run (init NUM_DOCTORS NUM_BEDS three_at_zero) (fst busy_ward) (snd busy_ward).
Proof. apply (iterate_run 4). by vm_compute. Qed.

Lemma two_waiting_run :
  run (init NUM_DOCTORS NUM_BEDS three_at_zero)
      (fst two_waiting) (snd two_waiting).
Proof. apply (iterate_run 1). by vm_compute. Qed.

Lemma pools_lt : (NUM_DOCTORS < NUM_BEDS)%nat.
Proof. unfold NUM_DOCTORS, NUM_BEDS. lia. Qed.

Lemma main_loop_never_exits_witness :
  (NUM_DOCTORS < NUM_BEDS)%nat /\
  run (init NUM_DOCTORS NUM_BEDS three_at_zero) (fst busy_ward) (snd busy_ward) /\
  currentTime (fst busy_ward) = 0 /\ loop_cond (fst busy_ward) = true.
Proof.
  split; [exact pools_lt|]. split; [exact busy_ward_run|].
  exact (main_loop_never_exits NUM_DOCTORS NUM_BEDS three_at_zero
           (fst busy_ward) (snd busy_ward) pools_lt busy_ward_run).
Defined.

Lemma clock_below_every_endTime_witness :
  run (init NUM_DOCTORS NUM_BEDS three_at_zero) (fst busy_ward) (snd busy_ward) /\
  (forall r, r ∈ doctors (fst busy_ward) ++ beds (fst busy_ward) ->
             currentTime (fst busy_ward) <= endTime r) /\
  ((exists r, r ∈ doctors (fst busy_ward) ++ beds (fst busy_ward)
              /\ endTime r = 0) -> currentTime (fst busy_ward) = 0) /\
  (forall x : State tape,
     currentTime (advance_clock x) = Z.min (currentTime x + 1) (next_event x) /\
     forall r, r ∈ doctors (advance_clock x) ++ beds (advance_clock x) ->
               currentTime (advance_clock x) <= endTime r) /\
  (forall fuel s' ev, tick fuel (fst busy_ward) = Some (s', ev) ->
                      currentTime (fst busy_ward) <= currentTime s').
Proof.
  split; [exact busy_ward_run|].
  exact (clock_below_every_endTime NUM_DOCTORS NUM_BEDS three_at_zero
           (fst busy_ward) (snd busy_ward) busy_ward_run).
Defined.

Lemma two_waiting_admit :
  admit_arrivals 8 (arrival_lambda (fst two_waiting)) (fst two_waiting)
  = Some (fst two_waiting).
Proof. by vm_compute. Qed.

Lemma availability_refreshed_witness :
  run (init NUM_DOCTORS NUM_BEDS three_at_zero)
      (fst two_waiting) (snd two_waiting) /\
  admit_arrivals 8 (arrival_lambda (fst two_waiting)) (fst two_waiting)
  = Some (fst two_waiting) /\
  WaitingRoom.empty (waitingRoom (advance_clock (fst two_waiting))) = false /\
  forall r, r ∈ doctors (advance_clock (fst two_waiting))
                ++ beds (advance_clock (fst two_waiting)) ->
            available r
            = (endTime r <=? currentTime (advance_clock (fst two_waiting))).
Proof.
  split; [exact two_waiting_run|]. split; [exact two_waiting_admit|].
  split; [by vm_compute|].
  exact (proj1 (proj2 (availability_refreshed NUM_DOCTORS NUM_BEDS three_at_zero
           (fst two_waiting) (snd two_waiting) 8 (fst two_waiting)
           two_waiting_run two_waiting_admit)) eq_refl).
Defined.

Lemma no_double_booking_witness :
  run (init NUM_DOCTORS NUM_BEDS three_at_zero) (fst busy_ward) (snd busy_ward) /\
  length (snd busy_ward) = 3%nat /\
  (Forall (fun a => a_until a = a_time a + treatmentTime (a_patient a)
                    /\ a_time a < a_until a) (snd busy_ward) /\
   forall i j a b,
     i <> j -> snd busy_ward !! i = Some a -> snd busy_ward !! j = Some b ->
     a_doctor a = a_doctor b \/ a_bed a = a_bed b ->
     a_until a <= a_time b \/ a_until b <= a_time a).
Proof.
  split; [exact busy_ward_run|]. split; [by vm_compute|].
  exact (no_double_booking NUM_DOCTORS NUM_BEDS three_at_zero
           (fst busy_ward) (snd busy_ward) busy_ward_run).
Defined.

Lemma sample_room_built : WaitingRoom.built sample_room.
Proof. repeat constructor. Qed.

Lemma sample_room_eq : sample_room = [patient_b; patient_c; patient_a].
Proof. reflexivity. Qed.

Lemma pop_order_witness :
  WaitingRoom.built sample_room /\
  patient_b ∈ sample_room /\ patient_c ∈ sample_room /\
  WaitingRoom.outranks patient_b patient_c /\
  exists t, WaitingRoom.top sample_room = Some t /\ t <> patient_c /\
            patient_c ∈ WaitingRoom.pop sample_room /\
            (t = patient_b \/ patient_b ∈ WaitingRoom.pop sample_room).
Proof.
  assert (Hb : patient_b ∈ sample_room).
  { rewrite sample_room_eq. apply list_elem_of_here. }
  assert (Hc : patient_c ∈ sample_room).
  { rewrite sample_room_eq. apply list_elem_of_further, list_elem_of_here. }
  assert (Hbc : WaitingRoom.outranks patient_b patient_c).
  { right. simpl. lia. }
  split; [exact sample_room_built|]. split; [exact Hb|]. split; [exact Hc|].
  split; [exact Hbc|].
  exact (pop_order sample_room patient_b patient_c
           sample_room_built Hb Hc Hbc).
Defined.

Lemma no_bed_top :
  WaitingRoom.top (waitingRoom (fst no_bed)) = Some (mkPatient 1 0 1 40 0 0).
Proof. by vm_compute. Qed.

Lemma allocate_both_or_nothing_witness :
  WaitingRoom.top (waitingRoom (fst no_bed)) = Some (mkPatient 1 0 1 40 0 0) /\
  find_usable 0 (doctors (fst no_bed)) = Some (O, mkResource true 0) /\
  find_usable 0 (beds (fst no_bed)) = None /\
  allocate (fst no_bed) = (fst no_bed, None).
Proof.
  split; [exact no_bed_top|]. split; [by vm_compute|]. split; [by vm_compute|].
  refine (proj1 (proj2 (allocate_both_or_nothing (fst no_bed)
                          (mkPatient 1 0 1 40 0 0) no_bed_top))
            O (mkResource true 0) _ _); by vm_compute.
Defined.

Lemma final_metrics_witness :
  0 < patientsTreated (fst busy_ward) /\
  (0 < NUM_DOCTORS)%nat /\ (0 < NUM_BEDS)%nat /\
  avgWaitTime (finalize NUM_DOCTORS NUM_BEDS (fst busy_ward))
  = (inject_Z (totalWaitTime (fst busy_ward))
     / inject_Z (patientsTreated (fst busy_ward)))%Q /\
  sum_doctorUtilization (finalize NUM_DOCTORS NUM_BEDS (fst busy_ward))
  = (inject_Z (doctorUtilization (fst busy_ward))
     / inject_Z (Z.of_nat NUM_DOCTORS * SIMULATION_MINUTES))%Q /\
  sum_bedUtilization (finalize NUM_DOCTORS NUM_BEDS (fst busy_ward))
  = (inject_Z (bedUtilization (fst busy_ward))
     / inject_Z (Z.of_nat NUM_BEDS * SIMULATION_MINUTES))%Q /\
  sum_bedUtilization (finalize NUM_DOCTORS O (fst busy_ward)) = 0%Q.
Proof.
  assert (Hp : 0 < patientsTreated (fst busy_ward)) by (by vm_compute).
  assert (Hd : (0 < NUM_DOCTORS)%nat) by (unfold NUM_DOCTORS; lia).
  assert (Hb : (0 < NUM_BEDS)%nat) by (unfold NUM_BEDS; lia).
  destruct (final_metrics NUM_DOCTORS NUM_BEDS (fst busy_ward))
    as (H1 & _ & H3 & _ & H5 & _).
  destruct (final_metrics NUM_DOCTORS O (fst busy_ward))
    as (_ & _ & _ & _ & _ & H6).
  split; [exact Hp|]. split; [exact Hd|]. split; [exact Hb|].
  split; [exact (H1 Hp)|]. split; [exact (H3 Hd)|]. split; [exact (H5 Hb)|].
  exact (H6 eq_refl).
Defined.

(** With as many doctors as beds the clock can move. In the pass that
    starts at minute 39 nobody waits, the refresh sees both units busy
    until minute 40, and the clock step then goes to minute 40: the
    units stay flagged busy until the refresh of the next pass. *)
Lemma idle_pass_refresh_lags :
  WaitingRoom.empty (waitingRoom (advance_clock (fst minute_39))) = true /\
  currentTime (fst minute_39) = 39 /\
  currentTime (advance_clock (fst minute_39)) = 40 /\
  doctors (advance_clock (fst minute_39)) = [mkResource false 40] /\
  beds (advance_clock (fst minute_39)) = [mkResource false 40].
Proof. by vm_compute. Qed.

End Samples.

(** * Further properties of the code *)

(** ** The phases of a pass, under the invariant *)

Module PushFacts.
Import WaitingRoom.

Lemma push_Permutation (p : Patient) (w : t) : push p w ≡ₚ p :: w.
Proof.
  induction w as [|x w IH]; simpl; [done|].
  destruct (PatientComparator x p); [done|].
  rewrite IH. apply perm_swap.
Qed.

Lemma push_not_nil (p : Patient) (w : t) : push p w <> [].
Proof. destruct w as [|x w]; simpl; [done|]. by destruct (PatientComparator x p). Qed.

End PushFacts.

Section PhaseSpecs.
Context {RNG : Type} `{RandomSourceOk RNG}.
Implicit Types s : State RNG.

(** One admission, field by field. *)
Lemma admit_one_spec (lambda : Q) s :
  (0 <= lambda)%Q ->
  exists p,
    id p = nextPatientId s /\ arrivalTime p = nextArrivalTime s /\
    1 <= severity p <= 5 /\ 30 + severity p * 10 <= treatmentTime p <= 120 /\
    waitTime p = 0 /\ startTreatmentTime p = 0 /\
    waitingRoom (admit_one lambda s) = WaitingRoom.push p (waitingRoom s) /\
    allPatients (admit_one lambda s) = allPatients s ++ [p] /\
    nextPatientId (admit_one lambda s) = nextPatientId s + 1 /\
    totalPatients (admit_one lambda s) = totalPatients s + 1 /\
    nextArrivalTime s <= nextArrivalTime (admit_one lambda s) /\
    same_outside_arrivals s (admit_one lambda s).
Proof.
  intros Hl. unfold admit_one.
  pose proof (generateSeverity_range (rng s)) as Hsev.
  destruct (generateSeverity (rng s)) as [sev g1]. simpl in Hsev.
  assert (Hr : 30 + sev * 10 <= 120) by lia.
  pose proof (uniform_int_range _ _ g1 Hr) as Htreat.
  unfold generateTreatmentTime.
  destruct (uniform_int (30 + sev * 10) 120 g1) as [treat g2]. simpl in Htreat.
  pose proof (generateArrivalTime_ge (nextArrivalTime s) lambda g2 Hl) as Harr.
  destruct (generateArrivalTime (nextArrivalTime s) lambda g2) as [arr g3].
  simpl in Harr.
  exists (mkPatient (nextPatientId s) (nextArrivalTime s) sev treat 0 0).
  unfold same_outside_arrivals. simpl. split_and!; done || lia.
Qed.

(** The allocation step when the invariant holds: the patient at the top
    arrived at the current time, so [assignTime] is the current time. *)
Lemma allocate_spec s :
  Inv s ->
  allocate s = (s, None) \/
  exists p w i ri j rj,
    waitingRoom s = p :: w /\ patient_ok (currentTime s) p /\
    find_usable (currentTime s) (doctors s) = Some (i, ri) /\
    find_usable (currentTime s) (beds s) = Some (j, rj) /\
    allocate s = (fst (assign s p (currentTime s) i j),
                  Some (snd (assign s p (currentTime s) i j))).
Proof.
  intros Hs.
  destruct (allocate_cases s)
    as [E | (p & w & i & ri & j & rj & Ew & Hi & Hj & E)]; [by left|].
  right. exists p, w, i, ri, j, rj.
  pose proof (inv_waiting _ Hs) as Hw. rewrite Ew in Hw.
  inversion_clear Hw as [|? ? Hp _].
  assert (Et : Z.max (currentTime s) (arrivalTime p) = currentTime s).
  { destruct Hp as [-> _]. lia. }
  rewrite Et in *. done.
Qed.

(** Induction over the phases of the passes of a run. *)
Lemma run_phase_ind (P : State RNG -> list Assignment -> Prop)
    (numDoctors numBeds : nat) (g : RNG) :
  P (init numDoctors numBeds g) [] ->
  (forall lambda s log,
     (0 <= lambda)%Q -> Inv s -> arrival_due s = true ->
     P s log -> P (admit_one lambda s) log) ->
  (forall s log,
     Inv s -> arrivals_done s -> P s log -> P (advance_clock s) log) ->
  (forall s log,
     Inv s -> P s log ->
     P (fst (allocate s)) (log ++ option_list (snd (allocate s)))) ->
  forall s log, run (init numDoctors numBeds g) s log -> P s log.
Proof.
  intros Hinit Hadmit Hclock Halloc s log Hrun.
  induction Hrun as [|s log fuel s' ev Hrun IH _ Ht]; [done|].
  pose proof (run_inv _ _ _ _ _ Hrun) as Hs. unfold tick in Ht.
  destruct (admit_arrivals fuel (arrival_lambda s) s) as [s1|] eqn:E1; [|done].
  destruct (admit_arrivals_elim (fun x => Inv x /\ P x log) (arrival_lambda s))
    with (2 := conj Hs IH) (3 := E1) as [[Hs1 HP1] Hdue].
  { intros x [Hx HPx] Hduex. split.
    - apply admit_one_inv; [apply arrival_lambda_nonneg | done..].
    - apply Hadmit; [apply arrival_lambda_nonneg | done..]. }
  pose proof (arrival_due_false _ (inv_time _ Hs1) Hdue) as Hdone.
  pose proof (Halloc _ _ (advance_clock_inv _ Hs1 Hdone)
                (Hclock _ _ Hs1 Hdone HP1)) as HP'.
  by simplify_eq/=; destruct (allocate _); simplify_eq/=.
Qed.

End PhaseSpecs.

(** ** Identifiers, counters and conservation *)

Section LedgerFacts.
Context {RNG : Type} `{RandomSourceOk RNG}.
Implicit Types s : State RNG.

Lemma init_ledger (numDoctors numBeds : nat) (g : RNG) :
  Ledger (init numDoctors numBeds g) [].
Proof.
  unfold init. destruct (generateArrivalTime 0 BASE_LAMBDA g) as [arr g'].
  constructor; simpl; done.
Qed.

Lemma admit_one_ledger (lambda : Q) s log :
  (0 <= lambda)%Q -> Ledger s log -> Ledger (admit_one lambda s) log.
Proof.
  intros Hl [Hids Hnext Htot Htr Hperm].
  destruct (admit_one_spec lambda s Hl)
    as (p & Hid & _ & _ & _ & _ & _ & Ew & Ea & En & Et & _ & Eout).
  destruct Eout as (_ & _ & _ & _ & Etr & _ & _).
  constructor; rewrite ?Ew, ?Ea, ?En, ?Et, ?Etr, ?length_app; simpl.
  - intros i q [[_ Hq] | [-> <-]]%lookup_snoc_Some; [by apply Hids|]. lia.
  - lia.
  - lia.
  - done.
  - rewrite PushFacts.push_Permutation, fmap_cons, fmap_app. simpl.
    rewrite <- Hperm. apply Permutation_cons_append.
Qed.

Lemma advance_clock_ledger s log : Ledger s log -> Ledger (advance_clock s) log.
Proof. intros [? ? ? ? ?]. rewrite advance_clock_eq. by constructor. Qed.

Lemma allocate_ledger s log :
  Inv s -> Ledger s log ->
  Ledger (fst (allocate s)) (log ++ option_list (snd (allocate s))).
Proof.
  intros Hs Hl.
  destruct (allocate_spec s Hs)
    as [-> | (p & w & i & ri & j & rj & Ew & _ & _ & _ & ->)].
  { simpl. by rewrite app_nil_r. }
  destruct Hl as [Hids Hnext Htot Htr Hperm].
  constructor; simpl; try done.
  - rewrite length_app. simpl. lia.
  - rewrite Ew in *. simpl in *. rewrite !fmap_app. simpl.
    rewrite <- Hperm. rewrite app_assoc. symmetry.
    apply Permutation_cons_append.
Qed.

Lemma run_ledger (numDoctors numBeds : nat) (g : RNG) s log :
  run (init numDoctors numBeds g) s log -> Ledger s log.
Proof.
  apply run_phase_ind.
  - apply init_ledger.
  - intros lambda x l Hl _ _. by apply admit_one_ledger.
  - intros x l _ _. apply advance_clock_ledger.
  - apply allocate_ledger.
Qed.

End LedgerFacts.

(** ** The metric accumulators *)

Section AccountFacts.
Context {RNG : Type} `{RandomSourceOk RNG}.
Implicit Types s : State RNG.

Lemma init_accounts (numDoctors numBeds : nat) (g : RNG) :
  Accounts (init numDoctors numBeds g) [].
Proof.
  unfold init. destruct (generateArrivalTime 0 BASE_LAMBDA g) as [arr g'].
  constructor; simpl; done || lia.
Qed.

Lemma admit_one_accounts (lambda : Q) s log :
  (0 <= lambda)%Q -> Accounts s log -> Accounts (admit_one lambda s) log.
Proof.
  intros Hl [Hw Hlog He Hb].
  destruct (admit_one_spec lambda s Hl)
    as (p & _ & _ & _ & _ & _ & _ & _ & _ & _ & _ & _ & Eout).
  destruct Eout as (_ & _ & _ & Ewt & Etr & Edu & Ebu).
  constructor; rewrite ?Ewt, ?Etr, ?Edu, ?Ebu; done.
Qed.

Lemma advance_clock_accounts s log :
  Accounts s log -> Accounts (advance_clock s) log.
Proof. intros [? ? ? ?]. rewrite advance_clock_eq. by constructor. Qed.

Lemma front_slot_treatment (now : Z) (p : Patient) (w : WaitingRoom.t) :
  40 <= treatmentTime p <= 120 -> Forall (patient_ok now) w ->
  40 <= treatmentTime (front_slot p w) <= 120.
Proof.
  intros Hp Hw. unfold front_slot.
  destruct w as [|q w]; simpl; [done|].
  inversion_clear Hw as [|? ? Hq _]. by destruct Hq as (_ & _ & ?).
Qed.

Lemma allocate_accounts s log :
  Inv s -> Accounts s log ->
  Accounts (fst (allocate s)) (log ++ option_list (snd (allocate s))).
Proof.
  intros Hs Ha.
  destruct (allocate_spec s Hs)
    as [-> | (p & w & i & ri & j & rj & Ew & Hp & _ & _ & ->)].
  { simpl. by rewrite app_nil_r. }
  destruct Ha as [Hw Hlog He Hb].
  pose proof (inv_waiting _ Hs) as Hq. rewrite Ew in Hq.
  inversion_clear Hq as [|? ? _ Hq'].
  destruct Hp as (Harr & _ & Htreat).
  pose proof (front_slot_treatment (currentTime s)
    (mkPatient (id p) (arrivalTime p) (severity p) (treatmentTime p)
       (currentTime s - arrivalTime p) (currentTime s)) w Htreat Hq') as Hslot.
  constructor; simpl; rewrite ?Ew; simpl.
  - lia.
  - apply Forall_app. split; [done|]. repeat constructor; simpl; lia.
  - lia.
  - lia.
Qed.

Lemma run_accounts (numDoctors numBeds : nat) (g : RNG) s log :
  run (init numDoctors numBeds g) s log -> Accounts s log.
Proof.
  apply run_phase_ind.
  - apply init_accounts.
  - intros lambda x l Hl _ _. by apply admit_one_accounts.
  - intros x l _ _. apply advance_clock_accounts.
  - apply allocate_accounts.
Qed.

End AccountFacts.

(** ** The registry of patients *)

Section RegistryFacts.
Context {RNG : Type} `{RandomSourceOk RNG}.
Implicit Types s : State RNG.

Lemma record_ok_later (now now' : Z) (p : Patient) :
  now <= now' -> record_ok now p -> record_ok now' p.
Proof. unfold record_ok. lia. Qed.

Lemma init_registry (numDoctors numBeds : nat) (g : RNG) :
  Registry (init numDoctors numBeds g).
Proof.
  unfold init. destruct (generateArrivalTime 0 BASE_LAMBDA g) as [arr g'].
  constructor; simpl; [constructor|].
  intros i j p q _ Hi. by rewrite lookup_nil in Hi.
Qed.

Lemma admit_one_registry (lambda : Q) s :
  (0 <= lambda)%Q -> Inv s -> arrival_due s = true ->
  Registry s -> Registry (admit_one lambda s).
Proof.
  intros Hl Hs Hdue [Hrec Hsort].
  destruct (admit_one_spec lambda s Hl)
    as (p & _ & Harr & Hsev & Htreat & _ & _ & _ & Ea & _ & _ & _ & Eout).
  destruct Eout as (Ec & _).
  unfold arrival_due in Hdue. apply andb_true_iff in Hdue as [Hd1 Hd2].
  pose proof (inv_time _ Hs) as Ht. pose proof (inv_arrival _ Hs) as Hna.
  assert (Hp : record_ok (currentTime s) p) by (unfold record_ok; lia).
  constructor; rewrite ?Ea, ?Ec.
  - apply Forall_app. split; [done|]. constructor; [exact Hp | constructor].
  - intros i j x y Hij [[Hi Hx] | [-> <-]]%lookup_snoc_Some
                       [[Hj Hy] | [-> <-]]%lookup_snoc_Some.
    + exact (Hsort i j x y Hij Hx Hy).
    + pose proof (Forall_lookup_1 _ _ _ _ Hrec Hx) as Hx'.
      unfold record_ok in Hx'. lia.
    + lia.
    + lia.
Qed.

Lemma advance_clock_registry s :
  Inv s -> Registry s -> Registry (advance_clock s).
Proof.
  intros Hs [Hrec Hsort].
  destruct (next_event_bounds s Hs) as [Hge _].
  rewrite advance_clock_eq. constructor; simpl; [|done].
  eapply Forall_impl; [exact Hrec|]. intros p. apply record_ok_later. lia.
Qed.

Lemma allocate_registry s : Registry s -> Registry (fst (allocate s)).
Proof.
  intros Hr.
  destruct (allocate_cases s)
    as [-> | (p & w & i & ri & j & rj & _ & _ & _ & ->)]; [done|].
  destruct Hr as [Hrec Hsort]. by constructor.
Qed.

Lemma run_registry (numDoctors numBeds : nat) (g : RNG) s log :
  run (init numDoctors numBeds g) s log -> Registry s.
Proof.
  apply (run_phase_ind (fun x _ => Registry x)).
  - apply init_registry.
  - intros lambda x l Hl Hx Hdue. by apply admit_one_registry.
  - intros x l Hx _. by apply advance_clock_registry.
  - intros x l _. apply allocate_registry.
Qed.

End RegistryFacts.

(** ** The arrival loop as a whole *)

Section ArrivalLoop.
Context {RNG : Type} `{RandomSourceOk RNG}.
Implicit Types s : State RNG.

Lemma admit_arrivals_admitted (fuel : nat) (lambda : Q) s s1 :
  (0 <= lambda)%Q -> Inv s -> admit_arrivals fuel lambda s = Some s1 ->
  same_outside_arrivals s s1 /\ exists new, admitted s s1 new.
Proof.
  intros Hl Hs E1.
  destruct (admit_arrivals_elim
              (fun x => Inv x /\ same_outside_arrivals s x
                        /\ exists new, admitted s x new) lambda)
    with (s := s) (3 := E1) as [(_ & Hsame & Hnew) _]; [| |done].
  - intros x (Hx & Hsame & new & Ea & Ew & Et & Hnew) Hdue.
    split; [by apply admit_one_inv|].
    destruct (admit_one_spec lambda x Hl)
      as (p & _ & Harr & _ & _ & Hwt & Hst & Ew' & Ea' & _ & Et' & _ & Eout).
    unfold arrival_due in Hdue. apply andb_true_iff in Hdue as [Hd1 _].
    pose proof (inv_arrival _ Hx) as Hna.
    unfold same_outside_arrivals in *. split; [intuition congruence|].
    exists (new ++ [p]). unfold admitted. split_and!.
    + by rewrite Ea', Ea, app_assoc.
    + rewrite Ew', PushFacts.push_Permutation, Ew.
      rewrite <- app_assoc. simpl. apply Permutation_middle.
    + rewrite Et', Et, length_app. simpl. lia.
    + apply Forall_app. split; [done|].
      constructor; [|constructor]. destruct Hsame as (Ec & _). lia.
  - split; [done|]. split; [by unfold same_outside_arrivals|].
    exists []. unfold admitted. rewrite app_nil_r. simpl.
    split_and!; [done | done | lia | constructor].
Qed.

End ArrivalLoop.

(** ** A patient that cannot be served *)

Section Blocked.
Context {RNG : Type} `{RandomSourceOk RNG}.
Implicit Types s : State RNG.

Lemma blocked_find_usable (now : Z) (pool : list Resource) :
  Forall (fun r => now < endTime r) pool -> find_usable now pool = None.
Proof.
  intros Hall. destruct (find_usable now pool) as [[i r]|] eqn:E; [|done].
  apply find_usable_Some in E as (Hi & _ & He).
  pose proof (Forall_lookup_1 _ _ _ _ Hall Hi) as Hlt. simpl in Hlt. lia.
Qed.

Lemma release_blocked (now : Z) (pool : list Resource) :
  Forall (fun r => now < endTime r) pool ->
  Forall (fun r => now < endTime r) (release now <$> pool).
Proof.
  intros Hall. apply Forall_fmap. eapply Forall_impl; [exact Hall|].
  intros r Hr. simpl. by rewrite release_endTime.
Qed.

Lemma tick_blocked (fuel : nat) s s' ev :
  Inv s -> blocked s -> tick fuel s = Some (s', ev) ->
  blocked s' /\ currentTime s' = currentTime s /\ ev = None /\
  patientsTreated s' = patientsTreated s.
Proof.
  unfold tick. intros Hs [Hne Hpool] Ht.
  destruct (admit_arrivals fuel (arrival_lambda s) s) as [s1|] eqn:E1; [|done].
  destruct (admit_arrivals_inv _ _ _ Hs E1) as [Hs1 Hdone].
  destruct (admit_arrivals_admitted _ _ _ _ (arrival_lambda_nonneg s) Hs E1)
    as [(Ec & Ed & Eb & _ & Etr & _ & _) (new & _ & Ew & _ & _)].
  assert (Hne1 : waitingRoom s1 <> []).
  { intros E. rewrite E in Ew. symmetry in Ew.
    apply Permutation_nil_r in Ew. by apply app_eq_nil in Ew as [_ ?]. }
  destruct (next_event_bounds s1 Hs1) as [_ Hpin]. specialize (Hpin Hne1).
  pose proof (advance_clock_inv _ Hs1 Hdone) as Hs2.
  assert (E2 : currentTime (advance_clock s1) = currentTime s).
  { rewrite advance_clock_eq. simpl. lia. }
  assert (Hpool2 :
    Forall (fun r => currentTime (advance_clock s1) < endTime r)
           (doctors (advance_clock s1)) \/
    Forall (fun r => currentTime (advance_clock s1) < endTime r)
           (beds (advance_clock s1))).
  { rewrite E2. rewrite advance_clock_eq. simpl. rewrite Ec, Ed, Eb.
    destruct Hpool as [Hd | Hb]; [left | right]; by apply release_blocked. }
  assert (Ea : allocate (advance_clock s1) = (advance_clock s1, None)).
  { destruct (allocate_spec _ Hs2)
      as [E | (p & w & i & ri & j & rj & _ & _ & Hi & Hj & _)]; [done|].
    destruct Hpool2 as [Hd | Hb].
    - by rewrite (blocked_find_usable _ _ Hd) in Hi.
    - by rewrite (blocked_find_usable _ _ Hb) in Hj. }
  rewrite Ea in Ht. simplify_eq/=. split_and!; [|done..|].
  - split; [|done]. by rewrite advance_clock_eq.
  - by rewrite advance_clock_eq.
Qed.

End Blocked.

(** ** The sizes of the pools *)

Section PoolSizes.
Context {RNG : Type} `{RandomSourceOk RNG}.
Implicit Types s : State RNG.

Lemma run_pool_sizes (numDoctors numBeds : nat) (g : RNG) s log :
  run (init numDoctors numBeds g) s log ->
  length (doctors s) = numDoctors /\ length (beds s) = numBeds.
Proof.
  apply (run_phase_ind
           (fun x _ => length (doctors x) = numDoctors
                       /\ length (beds x) = numBeds)).
  - unfold init. destruct (generateArrivalTime 0 BASE_LAMBDA g) as [arr g'].
    simpl. by rewrite !length_replicate.
  - intros lambda x l Hl _ _ Hx.
    destruct (admit_one_spec lambda x Hl)
      as (p & _ & _ & _ & _ & _ & _ & _ & _ & _ & _ & _ & Eout).
    destruct Eout as (_ & -> & -> & _). done.
  - intros x l _ _ Hx. rewrite advance_clock_eq. simpl.
    by rewrite !length_fmap.
  - intros x l _ Hx.
    destruct (allocate_cases x)
      as [-> | (p & w & i & ri & j & rj & _ & _ & _ & ->)]; [done|].
    simpl. by rewrite !length_insert.
Qed.

End PoolSizes.

(** ** Properties of the comparator and the generators *)

(** X1. [PatientComparator] is a strict weak ordering, as
    [std::priority_queue] requires: irreflexive, asymmetric, transitive,
    with a transitive equivalence, which is having the same severity and
    the same arrival time. *)
Theorem PatientComparator_strict_weak :
  (forall a, PatientComparator a a = false) /\
  (forall a b, PatientComparator a b = true -> PatientComparator b a = false) /\
  (forall a b c, PatientComparator a b = true -> PatientComparator b c = true ->
                 PatientComparator a c = true) /\
  (forall a b c, equivalent a b -> equivalent b c -> equivalent a c) /\
  (forall a b, equivalent a b <->
               severity a = severity b /\ arrivalTime a = arrivalTime b).
Proof.
  unfold equivalent, PatientComparator. split_and!.
  - intros a. rewrite Z.eqb_refl. simpl. lia.
  - intros a b.
    destruct (Z.eqb_spec (severity a) (severity b)),
             (Z.eqb_spec (severity b) (severity a)); simpl; lia.
  - intros a b c.
    destruct (Z.eqb_spec (severity a) (severity b)),
             (Z.eqb_spec (severity b) (severity c)),
             (Z.eqb_spec (severity a) (severity c)); simpl; lia.
  - intros a b c.
    destruct (Z.eqb_spec (severity a) (severity b)),
             (Z.eqb_spec (severity b) (severity a)),
             (Z.eqb_spec (severity b) (severity c)),
             (Z.eqb_spec (severity c) (severity b)),
             (Z.eqb_spec (severity a) (severity c)),
             (Z.eqb_spec (severity c) (severity a)); simpl; lia.
  - intros a b.
    destruct (Z.eqb_spec (severity a) (severity b)),
             (Z.eqb_spec (severity b) (severity a)); simpl; lia.
Qed.

Section GeneratorProperties.
Context {RNG : Type} `{RandomSource RNG}.

(** X2. Whatever integer the generator returns for the roll, even one
    outside 1..10, [generateSeverity] returns a severity between 1 and 5,
    larger rolls never give a smaller severity, and the bounds
    [30 + severity * 10] and [120] that [generateTreatmentTime] passes to
    the uniform distribution are in order. Exactly one draw is made. *)
Theorem generateSeverity_any_roll (g g' : RNG) :
  1 <= fst (generateSeverity g) <= 5 /\
  30 + fst (generateSeverity g) * 10 <= 120 /\
  snd (generateSeverity g) = snd (uniform_int 1 10 g) /\
  (fst (uniform_int 1 10 g) <= fst (uniform_int 1 10 g') ->
   fst (generateSeverity g) <= fst (generateSeverity g')).
Proof.
  unfold generateSeverity.
  destruct (uniform_int 1 10 g) as [roll g1],
           (uniform_int 1 10 g') as [roll' g1']. simpl.
  split_and!; [repeat case_match; lia.. | done |].
  intros Hle. repeat case_match; lia.
Qed.

(** X4. The arrival rate used during a pass, by the minute at which the
    pass starts: 5 * 2 before minute 420, 5 * 8 from minute 1080 up to
    minute 1379, and 5 * 5 at every other minute, negative ones
    included. *)
Theorem arrival_lambda_by_minute (s : State RNG) :
  (0 <= currentTime s < 420 -> arrival_lambda s = 10%Q) /\
  (1080 <= currentTime s < 1380 -> arrival_lambda s = 40%Q) /\
  (420 <= currentTime s < 1080 \/ 1380 <= currentTime s \/ currentTime s <= -60 ->
   arrival_lambda s = 25%Q) /\
  (-60 < currentTime s < 0 -> arrival_lambda s = 10%Q).
Proof.
  unfold arrival_lambda, predictArrivalRate, BASE_LAMBDA.
  pose proof (Z.quot_rem' (currentTime s) 60) as Hqr.
  split_and!; intros Hc.
  - pose proof (Z.rem_bound_pos (currentTime s) 60).
    assert ((18 <=? currentTime s ÷ 60) = false) as -> by lia.
    assert ((0 <=? currentTime s ÷ 60) = true) as -> by lia.
    assert ((currentTime s ÷ 60 <=? 6) = true) as -> by lia. done.
  - pose proof (Z.rem_bound_pos (currentTime s) 60).
    assert ((18 <=? currentTime s ÷ 60) = true) as -> by lia.
    assert ((currentTime s ÷ 60 <=? 22) = true) as -> by lia. done.
  - destruct (Z.le_gt_cases 0 (currentTime s)) as [Hpos | Hneg].
    + pose proof (Z.rem_bound_pos (currentTime s) 60).
      destruct (Z.le_gt_cases 1380 (currentTime s)).
      * assert ((currentTime s ÷ 60 <=? 22) = false) as -> by lia.
        assert ((currentTime s ÷ 60 <=? 6) = false) as -> by lia.
        by rewrite !andb_false_r.
      * assert ((18 <=? currentTime s ÷ 60) = false) as -> by lia.
        assert ((currentTime s ÷ 60 <=? 6) = false) as -> by lia.
        by rewrite !andb_false_r.
    + pose proof (Z.rem_bound_pos_neg (currentTime s) 60).
      assert ((18 <=? currentTime s ÷ 60) = false) as -> by lia.
      assert ((0 <=? currentTime s ÷ 60) = false) as -> by lia. done.
  - pose proof (Z.rem_bound_pos_neg (currentTime s) 60).
    assert (currentTime s ÷ 60 = 0) as -> by lia. done.
Qed.

End GeneratorProperties.

(** ** Properties of every run *)

Section RunProperties.
Context {RNG : Type} `{RandomSourceOk RNG}.
Implicit Types s : State RNG.

(** X3. Every record of [allPatients] is as the arrival loop wrote it:
    an arrival time between 0 and the current time and before the
    horizon, a severity between 1 and 5, and a treatment time between
    [30 + 10 * severity] and 120. *)
Theorem patient_records_well_formed (numDoctors numBeds : nat) (g : RNG) s log :
  run (init numDoctors numBeds g) s log ->
  Forall (fun p => 0 <= arrivalTime p <= currentTime s /\
                   arrivalTime p < SIMULATION_MINUTES /\
                   1 <= severity p <= 5 /\
                   30 + severity p * 10 <= treatmentTime p <= 120)
         (allPatients s).
Proof. intros Hrun. exact (reg_records _ (run_registry _ _ _ _ _ Hrun)). Qed.

(** X6. Patient identifiers are handed out consecutively from 1: the
    record at position [i] of [allPatients] has identifier [i + 1],
    [nextPatientId] is one more than the number of records, and
    [totalPatients] is that number. *)
Theorem patient_ids_consecutive (numDoctors numBeds : nat) (g : RNG) s log :
  run (init numDoctors numBeds g) s log ->
  (forall i p, allPatients s !! i = Some p -> id p = Z.of_nat i + 1) /\
  nextPatientId s = Z.of_nat (length (allPatients s)) + 1 /\
  totalPatients s = Z.of_nat (length (allPatients s)).
Proof.
  intros Hrun. destruct (run_ledger _ _ _ _ _ Hrun) as [? ? ? ? ?]. done.
Qed.

(** X7. No patient is lost or duplicated: the patients waiting together
    with the patients of the acquisitions made so far are, up to order,
    the patients of [allPatients] (compared by identifier, arrival time,
    severity and treatment time); [patientsTreated] counts the
    acquisitions, and [totalPatients] is [patientsTreated] plus the
    length of the queue. *)
Theorem patients_conserved (numDoctors numBeds : nat) (g : RNG) s log :
  run (init numDoctors numBeds g) s log ->
  (identity <$> waitingRoom s) ++ (identity <$> (a_patient <$> log))
    ≡ₚ identity <$> allPatients s /\
  patientsTreated s = Z.of_nat (length log) /\
  totalPatients s = patientsTreated s + Z.of_nat (length (waitingRoom s)) /\
  0 <= patientsTreated s <= totalPatients s.
Proof.
  intros Hrun. destruct (run_ledger _ _ _ _ _ Hrun) as [_ _ Htot Htr Hperm].
  pose proof (Permutation_length Hperm) as Hlen.
  rewrite length_app, !length_fmap in Hlen.
  split_and!; [done | done | lia | lia | lia].
Qed.

(** X8. [allPatients] is in order of arrival, and every patient in the
    waiting room arrived at the minute the clock shows. *)
Theorem arrivals_in_order (numDoctors numBeds : nat) (g : RNG) s log :
  run (init numDoctors numBeds g) s log ->
  (forall i j p q,
     (i <= j)%nat -> allPatients s !! i = Some p -> allPatients s !! j = Some q ->
     arrivalTime p <= arrivalTime q) /\
  Forall (fun p => arrivalTime p = currentTime s) (waitingRoom s).
Proof.
  intros Hrun. split.
  - exact (reg_sorted _ (run_registry _ _ _ _ _ Hrun)).
  - eapply Forall_impl; [exact (inv_waiting _ (run_inv _ _ _ _ _ Hrun))|].
    by intros p [? _].
Qed.

(** X9. No waiting time is ever recorded: every acquisition is made at
    the arrival time of its patient, [totalWaitTime] stays 0, and the
    average wait computed after the loop is 0. *)
Theorem no_wait_recorded (numDoctors numBeds : nat) (g : RNG) s log :
  run (init numDoctors numBeds g) s log ->
  Forall (fun a => a_time a = arrivalTime (a_patient a)
                   /\ waitTime (a_patient a) = 0) log /\
  totalWaitTime s = 0 /\
  (avgWaitTime (finalize numDoctors numBeds s) == 0)%Q.
Proof.
  intros Hrun. destruct (run_accounts _ _ _ _ _ Hrun) as [Hw Hlog _ _].
  split_and!; [|done|].
  - eapply Forall_impl; [exact Hlog|]. by intros a (? & ? & _).
  - unfold finalize. simpl. rewrite Hw. by case_match.
Qed.

(** X10. The two utilization accumulators are always equal, and each
    lies between 40 and 120 minutes per treated patient. *)
Theorem utilization_accumulators (numDoctors numBeds : nat) (g : RNG) s log :
  run (init numDoctors numBeds g) s log ->
  doctorUtilization s = bedUtilization s /\
  40 * patientsTreated s <= doctorUtilization s <= 120 * patientsTreated s.
Proof.
  intros Hrun. by destruct (run_accounts _ _ _ _ _ Hrun) as [_ _ ? ?].
Qed.

(** X11. The clock stays between 0 and the horizon; a pass advances it by
    at most one minute; and a pass that ends with a patient still
    waiting has not advanced it at all. *)
Theorem clock_step_bounds (numDoctors numBeds : nat) (g : RNG) s log :
  run (init numDoctors numBeds g) s log ->
  0 <= currentTime s <= SIMULATION_MINUTES /\
  forall fuel s' ev,
    tick fuel s = Some (s', ev) ->
    currentTime s' <= currentTime s + 1 /\
    (waitingRoom s' <> [] -> currentTime s' = currentTime s).
Proof.
  intros Hrun. pose proof (run_inv _ _ _ _ _ Hrun) as Hs.
  split; [exact (inv_time _ Hs)|]. intros fuel s' ev Ht. unfold tick in Ht.
  destruct (admit_arrivals fuel (arrival_lambda s) s) as [s1|] eqn:E1; [|done].
  destruct (admit_arrivals_inv _ _ _ Hs E1) as [Hs1 Hdone].
  destruct (admit_arrivals_frame _ _ _ _ E1) as (Et & _ & _).
  destruct (next_event_bounds s1 Hs1) as [Hge Hpin].
  pose proof (allocate_currentTime (advance_clock s1)) as Ea.
  assert (Ew : waitingRoom (fst (allocate (advance_clock s1))) <> [] ->
               waitingRoom s1 <> []).
  { destruct (allocate_cases (advance_clock s1))
      as [-> | (p & w & i & ri & j & rj & Ew & _ & _ & ->)].
    - by rewrite advance_clock_eq.
    - rewrite advance_clock_eq in Ew. simpl in Ew. by rewrite Ew. }
  rewrite advance_clock_eq in Ea at 2. simpl in Ea.
  destruct (allocate (advance_clock s1)) as [s2 ev2]. simplify_eq/=.
  split; [lia|]. intros Hne. specialize (Hpin (Ew Hne)). lia.
Qed.

(** X12. Once a patient waits while one of the pools has no unit free at
    the current time, nothing changes any more: in every continuation of
    the run the clock and [patientsTreated] keep their values, no
    acquisition is made, and the loop condition holds, so the loop is
    not left. *)
Theorem blocked_forever (numDoctors numBeds : nat) (g : RNG) s log
    (s' : State RNG) (log' : list Assignment) :
  run (init numDoctors numBeds g) s log ->
  blocked s ->
  run s s' log' ->
  currentTime s' = currentTime s /\ patientsTreated s' = patientsTreated s /\
  log' = [] /\ loop_cond s' = true.
Proof.
  intros Hrun Hb Hcont. pose proof (run_inv _ _ _ _ _ Hrun) as Hs.
  assert (Hall : Inv s' /\ blocked s' /\ currentTime s' = currentTime s /\
                 patientsTreated s' = patientsTreated s /\ log' = []).
  { induction Hcont as [|x l fuel x' ev _ IH _ Ht]; [done|].
    destruct IH as (Hx & Hbx & Ec & Etr & ->).
    destruct (tick_blocked _ _ _ _ Hx Hbx Ht) as (Hbx' & Ec' & -> & Etr').
    split_and!; [by eapply tick_inv | done | lia | lia | done]. }
  destruct Hall as (_ & [Hne _] & Ec & Etr & El).
  split_and!; [done..|]. unfold loop_cond.
  destruct (waitingRoom s'); [done|]. simpl. apply orb_true_r.
Qed.

(** X13. The pools keep their sizes: every state of a run has
    [numDoctors] doctors and [numBeds] beds. *)
Theorem pool_sizes_fixed (numDoctors numBeds : nat) (g : RNG) s log :
  run (init numDoctors numBeds g) s log ->
  length (doctors s) = numDoctors /\ length (beds s) = numBeds.
Proof. apply run_pool_sizes. Qed.

(** X14. With no doctor or no bed nobody is ever treated: no acquisition
    is made, [patientsTreated] and both utilization accumulators stay 0,
    and every admitted patient is still in the waiting room. *)
Theorem empty_pool_treats_nobody (numDoctors numBeds : nat) (g : RNG) s log :
  numDoctors = O \/ numBeds = O ->
  run (init numDoctors numBeds g) s log ->
  log = [] /\ patientsTreated s = 0 /\
  doctorUtilization s = 0 /\ bedUtilization s = 0 /\
  totalPatients s = Z.of_nat (length (waitingRoom s)).
Proof.
  intros Hz Hrun.
  assert (Hlog : log = []).
  { induction Hrun as [|x l fuel x' ev Hrun IH _ Ht]; [done|].
    rewrite IH. simpl.
    enough (ev = None) as -> by done.
    unfold tick in Ht.
    destruct (admit_arrivals fuel (arrival_lambda x) x) as [x1|] eqn:E1; [|done].
    destruct (admit_arrivals_frame _ _ _ _ E1) as (_ & Ed & Eb).
    destruct (run_pool_sizes _ _ _ _ _ Hrun) as [Hd Hb].
    destruct (allocate_cases (advance_clock x1))
      as [E | (p & w & i & ri & j & rj & _ & Hi & Hj & _)].
    { rewrite E in Ht. by simplify_eq/=. }
    apply find_usable_Some in Hi as (Hi%lookup_lt_Some & _).
    apply find_usable_Some in Hj as (Hj%lookup_lt_Some & _).
    rewrite advance_clock_eq in Hi, Hj. simpl in Hi, Hj.
    rewrite length_fmap in Hi, Hj. rewrite Ed in Hi. rewrite Eb in Hj. lia. }
  destruct (run_ledger _ _ _ _ _ Hrun) as [_ _ Htot Htr Hperm].
  destruct (run_accounts _ _ _ _ _ Hrun) as [_ _ He Hb].
  pose proof (Permutation_length Hperm) as Hlen.
  rewrite length_app, !length_fmap in Hlen.
  subst log. simpl in *. split_and!; [done | lia..].
Qed.

(** X15. If the loop is left, it is left at the horizon with an empty
    waiting room, with every admitted patient treated, with every unit
    booked until the horizon or later, and with the next arrival at or
    after the horizon. *)
Theorem exit_state (numDoctors numBeds : nat) (g : RNG) s log :
  run (init numDoctors numBeds g) s log ->
  loop_cond s = false ->
  currentTime s = SIMULATION_MINUTES /\ waitingRoom s = [] /\
  patientsTreated s = totalPatients s /\
  Forall (fun r => SIMULATION_MINUTES <= endTime r) (doctors s ++ beds s) /\
  SIMULATION_MINUTES <= nextArrivalTime s.
Proof.
  intros Hrun Hexit. pose proof (run_inv _ _ _ _ _ Hrun) as Hs.
  unfold loop_cond in Hexit. apply orb_false_iff in Hexit as [Hc Hw].
  pose proof (inv_time _ Hs) as Ht.
  assert (Ec : currentTime s = SIMULATION_MINUTES) by lia.
  assert (Ew : waitingRoom s = []) by (by destruct (waitingRoom s)).
  destruct (run_ledger _ _ _ _ _ Hrun) as [_ _ Htot Htr Hperm].
  pose proof (Permutation_length Hperm) as Hlen.
  rewrite length_app, !length_fmap, Ew in Hlen. simpl in Hlen.
  split_and!; [done | done | lia | |].
  - rewrite <- Ec. apply Forall_app. split.
    + eapply Forall_impl; [exact (inv_doctors _ Hs)|]. by intros r [? _].
    + eapply Forall_impl; [exact (inv_beds _ Hs)|]. by intros r [? _].
  - rewrite <- Ec. exact (inv_arrival _ Hs).
Qed.

(** X18. When the arrival loop of a pass is left, no arrival is due any
    more; the clock, the pools and the metric accumulators are as
    before; the patients admitted have been appended to [allPatients] in
    order and added to the waiting room; [totalPatients] has grown by
    their number; and each of them arrived at the current minute, with
    its wait fields 0. *)
Theorem arrival_loop_effect (numDoctors numBeds : nat) (g : RNG) s log
    (fuel : nat) (s1 : State RNG) :
  run (init numDoctors numBeds g) s log ->
  admit_arrivals fuel (arrival_lambda s) s = Some s1 ->
  arrival_due s1 = false /\
  same_outside_arrivals s s1 /\
  exists new,
    allPatients s1 = allPatients s ++ new /\
    waitingRoom s1 ≡ₚ new ++ waitingRoom s /\
    totalPatients s1 = totalPatients s + Z.of_nat (length new) /\
    Forall (fun p => arrivalTime p = currentTime s /\ waitTime p = 0
                     /\ startTreatmentTime p = 0) new.
Proof.
  intros Hrun E1. pose proof (run_inv _ _ _ _ _ Hrun) as Hs.
  destruct (admit_arrivals_admitted _ _ _ _ (arrival_lambda_nonneg s) Hs E1)
    as [Hsame Hnew].
  split_and!; [|done|exact Hnew].
  by destruct (admit_arrivals_elim (fun _ => True) (arrival_lambda s))
    with (s := s) (3 := E1) as [_ ?].
Qed.

End RunProperties.

(** ** Properties of single steps *)

Lemma pool_min_attained (t : Z) (pool : list Resource) :
  pool_min t pool = t \/ exists r, r ∈ pool /\ pool_min t pool = endTime r.
Proof.
  revert t. induction pool as [|r pool IH]; intros t; simpl; [by left|].
  destruct (IH (Z.min t (endTime r))) as [E | (r' & Hr' & E)].
  - destruct (Z.min_spec t (endTime r)) as [[_ Em] | [_ Em]].
    + left. unfold pool_min in *. simpl. lia.
    + right. exists r. split; [apply list_elem_of_here|].
      unfold pool_min in *. simpl. lia.
  - right. exists r'. split; [by apply list_elem_of_further | done].
Qed.

(** X19. A refresh loop keeps the size of the pool and every [endTime],
    leaves an available unit as it is, flags a unit available exactly
    when it was available or its [endTime] is not after the current
    time, and returns the minimum of the value it started from and all
    the [endTime]s: a lower bound of them that one of them attains. *)
Theorem refresh_pool_effect (now : Z) (pool : list Resource) (t : Z) :
  length (fst (refresh_pool now pool t)) = length pool /\
  endTime <$> fst (refresh_pool now pool t) = endTime <$> pool /\
  (forall i r, pool !! i = Some r ->
     exists r', fst (refresh_pool now pool t) !! i = Some r' /\
                (available r = true -> r' = r) /\
                available r' = available r || (endTime r <=? now)) /\
  snd (refresh_pool now pool t) <= t /\
  Forall (fun r => snd (refresh_pool now pool t) <= endTime r) pool /\
  (snd (refresh_pool now pool t) = t \/
   exists r, r ∈ pool /\ snd (refresh_pool now pool t) = endTime r).
Proof.
  rewrite refresh_pool_eq. simpl.
  destruct (pool_min_le t pool) as [Hle Hall].
  split_and!; [| | | done | done | apply pool_min_attained].
  - by rewrite length_fmap.
  - rewrite <- list_fmap_compose. apply list_fmap_ext.
    intros i r _. apply release_endTime.
  - intros i r Hi. exists (release now r). split_and!.
    + by rewrite list_lookup_fmap, Hi.
    + intros Ha. unfold release. by rewrite Ha.
    + apply release_available.
Qed.

Section AllocationProperties.
Context {RNG : Type} `{RandomSource RNG}.
Implicit Types s : State RNG.

(** X16. An allocation takes the first doctor and the first bed that
    qualify: no unit at a smaller index of either pool is available with
    an [endTime] at or before [assignTime]. *)
Theorem allocate_first_fit s (s' : State RNG) (a : Assignment) :
  allocate s = (s', Some a) ->
  (forall k r, (k < a_doctor a)%nat -> doctors s !! k = Some r ->
               usable (a_time a) r = false) /\
  (forall k r, (k < a_bed a)%nat -> beds s !! k = Some r ->
               usable (a_time a) r = false).
Proof.
  intros Ha.
  destruct (allocate_cases s)
    as [E | (p & w & i & ri & j & rj & _ & Hi & Hj & E)];
    rewrite E in Ha; simplify_eq/=.
  unfold find_usable in Hi, Hj.
  apply list_find_Some in Hi as (_ & _ & Hi).
  apply list_find_Some in Hj as (_ & _ & Hj).
  split; intros k r Hk Hr.
  - specialize (Hi k r Hr Hk). by destruct (usable _ r).
  - specialize (Hj k r Hr Hk). by destruct (usable _ r).
Qed.

(** X17. A successful allocation removes exactly the patient at the top
    of the queue, books exactly the chosen doctor and the chosen bed
    (flagged busy) until [assignTime + treatmentTime] of that patient and
    leaves every other unit as it is, adds 1 to [patientsTreated] and the
    patient's wait to [totalWaitTime], and leaves the clock, the next
    arrival, the generator, the registry and its counters unchanged. *)
Theorem allocate_success_effect s (s' : State RNG) (a : Assignment) :
  allocate s = (s', Some a) ->
  exists p,
    waitingRoom s = p :: waitingRoom s' /\
    identity (a_patient a) = identity p /\
    a_until a = a_time a + treatmentTime p /\
    doctors s' !! a_doctor a = Some (mkResource false (a_until a)) /\
    beds s' !! a_bed a = Some (mkResource false (a_until a)) /\
    (forall k, k <> a_doctor a -> doctors s' !! k = doctors s !! k) /\
    (forall k, k <> a_bed a -> beds s' !! k = beds s !! k) /\
    patientsTreated s' = patientsTreated s + 1 /\
    totalWaitTime s' = totalWaitTime s + (a_time a - arrivalTime p) /\
    allPatients s' = allPatients s /\ totalPatients s' = totalPatients s /\
    nextPatientId s' = nextPatientId s /\ currentTime s' = currentTime s /\
    nextArrivalTime s' = nextArrivalTime s /\ rng s' = rng s.
Proof.
  intros Ha.
  destruct (allocate_cases s)
    as [E | (p & w & i & ri & j & rj & Ew & Hi & Hj & E)];
    rewrite E in Ha; simplify_eq/=.
  apply find_usable_Some in Hi as (Hi%lookup_lt_Some & _).
  apply find_usable_Some in Hj as (Hj%lookup_lt_Some & _).
  exists p. rewrite Ew. simpl. split_and!; try done.
  - by apply list_lookup_insert_eq.
  - by apply list_lookup_insert_eq.
  - intros k Hk. by apply list_lookup_insert_ne.
  - intros k Hk. by apply list_lookup_insert_ne.
Qed.

End AllocationProperties.

(** ** The further properties on sample runs *)

Module MoreSamples.
Import Scripted ScriptedFacts Days.

Lemma full_day_run :
  run (init 1 1 full_day_tape) (fst full_day) (snd full_day).
Proof. apply (iterate_run 1452). by vm_compute. Qed.

Lemma minute_120_run :
  run (init 1 1 full_day_tape) (fst minute_120) (snd minute_120).
Proof. apply (iterate_run 121). by vm_compute. Qed.

Lemma sixth_waits_run :
  run (init NUM_DOCTORS NUM_BEDS six_at_zero) (fst sixth_waits) (snd sixth_waits).
Proof. apply (iterate_run 6). by vm_compute. Qed.

Lemma five_waiting_run :
  run (init NUM_DOCTORS NUM_BEDS six_at_zero)
      (fst five_waiting) (snd five_waiting).
Proof. apply (iterate_run 1). by vm_compute. Qed.

Lemma no_doctor_run :
  run (init 0 2 three_at_zero) (fst no_doctor) (snd no_doctor).
Proof. apply (iterate_run 3). by vm_compute. Qed.

Lemma patient_records_well_formed_witness :
  run (init 1 1 full_day_tape) (fst full_day) (snd full_day) /\
  length (allPatients (fst full_day)) = 12%nat /\
  Forall (fun p => 0 <= arrivalTime p <= currentTime (fst full_day) /\
                   arrivalTime p < SIMULATION_MINUTES /\
                   1 <= severity p <= 5 /\
                   30 + severity p * 10 <= treatmentTime p <= 120)
         (allPatients (fst full_day)).
Proof.
  split; [exact full_day_run|]. split; [by vm_compute|].
  exact (patient_records_well_formed 1 1 full_day_tape _ _ full_day_run).
Defined.

Lemma patient_ids_consecutive_witness :
  run (init 1 1 full_day_tape) (fst full_day) (snd full_day) /\
  (forall i p, allPatients (fst full_day) !! i = Some p ->
               id p = Z.of_nat i + 1) /\
  nextPatientId (fst full_day)
  = Z.of_nat (length (allPatients (fst full_day))) + 1 /\
  totalPatients (fst full_day) = Z.of_nat (length (allPatients (fst full_day))).
Proof.
  split; [exact full_day_run|].
  exact (patient_ids_consecutive 1 1 full_day_tape _ _ full_day_run).
Defined.

Lemma patients_conserved_witness :
  run (init NUM_DOCTORS NUM_BEDS six_at_zero)
      (fst sixth_waits) (snd sixth_waits) /\
  length (waitingRoom (fst sixth_waits)) = 1%nat /\
  ((identity <$> waitingRoom (fst sixth_waits))
     ++ (identity <$> (a_patient <$> snd sixth_waits))
     ≡ₚ identity <$> allPatients (fst sixth_waits) /\
   patientsTreated (fst sixth_waits) = Z.of_nat (length (snd sixth_waits)) /\
   totalPatients (fst sixth_waits)
   = patientsTreated (fst sixth_waits)
     + Z.of_nat (length (waitingRoom (fst sixth_waits))) /\
   0 <= patientsTreated (fst sixth_waits) <= totalPatients (fst sixth_waits)).
Proof.
  split; [exact sixth_waits_run|]. split; [by vm_compute|].
  exact (patients_conserved NUM_DOCTORS NUM_BEDS six_at_zero _ _ sixth_waits_run).
Defined.

Lemma arrivals_in_order_witness :
  run (init 1 1 full_day_tape) (fst full_day) (snd full_day) /\
  (forall i j p q,
     (i <= j)%nat -> allPatients (fst full_day) !! i = Some p ->
     allPatients (fst full_day) !! j = Some q ->
     arrivalTime p <= arrivalTime q) /\
  Forall (fun p => arrivalTime p = currentTime (fst full_day))
         (waitingRoom (fst full_day)).
Proof.
  split; [exact full_day_run|].
  exact (arrivals_in_order 1 1 full_day_tape _ _ full_day_run).
Defined.

Lemma no_wait_recorded_witness :
  run (init 1 1 full_day_tape) (fst full_day) (snd full_day) /\
  length (snd full_day) = 12%nat /\
  Forall (fun a => a_time a = arrivalTime (a_patient a)
                   /\ waitTime (a_patient a) = 0) (snd full_day) /\
  totalWaitTime (fst full_day) = 0 /\
  (avgWaitTime (finalize 1 1 (fst full_day)) == 0)%Q.
Proof.
  split; [exact full_day_run|]. split; [by vm_compute|].
  exact (no_wait_recorded 1 1 full_day_tape _ _ full_day_run).
Defined.

Lemma utilization_accumulators_witness :
  run (init 1 1 full_day_tape) (fst full_day) (snd full_day) /\
  doctorUtilization (fst full_day) = bedUtilization (fst full_day) /\
  40 * patientsTreated (fst full_day) <= doctorUtilization (fst full_day)
  <= 120 * patientsTreated (fst full_day).
Proof.
  split; [exact full_day_run|].
  exact (utilization_accumulators 1 1 full_day_tape _ _ full_day_run).
Defined.

Lemma clock_step_bounds_witness :
  run (init 1 1 full_day_tape) (fst minute_120) (snd minute_120) /\
  currentTime (fst minute_120) = 120 /\
  0 <= currentTime (fst minute_120) <= SIMULATION_MINUTES /\
  forall fuel s' ev,
    tick fuel (fst minute_120) = Some (s', ev) ->
    currentTime s' <= currentTime (fst minute_120) + 1 /\
    (waitingRoom s' <> [] -> currentTime s' = currentTime (fst minute_120)).
Proof.
  split; [exact minute_120_run|]. split; [by vm_compute|].
  exact (clock_step_bounds 1 1 full_day_tape _ _ minute_120_run).
Defined.

Lemma sixth_waits_blocked : blocked (fst sixth_waits).
Proof.
  split; [by vm_compute|]. left. vm_compute.
  repeat (constructor; [reflexivity|]). constructor.
Qed.

Lemma sixth_waits_continues :
  run (fst sixth_waits) (fst (after 3 (fst sixth_waits)))
      (snd (after 3 (fst sixth_waits))).
Proof. apply (iterate_run 3). by vm_compute. Qed.

Lemma blocked_forever_witness :
  run (init NUM_DOCTORS NUM_BEDS six_at_zero)
      (fst sixth_waits) (snd sixth_waits) /\
  blocked (fst sixth_waits) /\
  run (fst sixth_waits) (fst (after 3 (fst sixth_waits)))
      (snd (after 3 (fst sixth_waits))) /\
  currentTime (fst (after 3 (fst sixth_waits))) = currentTime (fst sixth_waits) /\
  patientsTreated (fst (after 3 (fst sixth_waits)))
  = patientsTreated (fst sixth_waits) /\
  snd (after 3 (fst sixth_waits)) = [] /\
  loop_cond (fst (after 3 (fst sixth_waits))) = true.
Proof.
  split; [exact sixth_waits_run|]. split; [exact sixth_waits_blocked|].
  split; [exact sixth_waits_continues|].
  exact (blocked_forever NUM_DOCTORS NUM_BEDS six_at_zero _ _ _ _
           sixth_waits_run sixth_waits_blocked sixth_waits_continues).
Defined.

Lemma pool_sizes_fixed_witness :
  run (init NUM_DOCTORS NUM_BEDS six_at_zero)
      (fst sixth_waits) (snd sixth_waits) /\
  length (doctors (fst sixth_waits)) = NUM_DOCTORS /\
  length (beds (fst sixth_waits)) = NUM_BEDS.
Proof.
  split; [exact sixth_waits_run|].
  exact (pool_sizes_fixed NUM_DOCTORS NUM_BEDS six_at_zero _ _ sixth_waits_run).
Defined.

Lemma empty_pool_treats_nobody_witness :
  (O = O \/ 2%nat = O) /\
  run (init 0 2 three_at_zero) (fst no_doctor) (snd no_doctor) /\
  length (waitingRoom (fst no_doctor)) = 3%nat /\
  snd no_doctor = [] /\ patientsTreated (fst no_doctor) = 0 /\
  doctorUtilization (fst no_doctor) = 0 /\ bedUtilization (fst no_doctor) = 0 /\
  totalPatients (fst no_doctor)
  = Z.of_nat (length (waitingRoom (fst no_doctor))).
Proof.
  split; [by left|]. split; [exact no_doctor_run|]. split; [by vm_compute|].
  exact (empty_pool_treats_nobody 0 2 three_at_zero _ _
           (or_introl eq_refl) no_doctor_run).
Defined.

Lemma exit_state_witness :
  run (init 1 1 full_day_tape) (fst full_day) (snd full_day) /\
  loop_cond (fst full_day) = false /\
  currentTime (fst full_day) = SIMULATION_MINUTES /\
  waitingRoom (fst full_day) = [] /\
  patientsTreated (fst full_day) = totalPatients (fst full_day) /\
  Forall (fun r => SIMULATION_MINUTES <= endTime r)
         (doctors (fst full_day) ++ beds (fst full_day)) /\
  SIMULATION_MINUTES <= nextArrivalTime (fst full_day).
Proof.
  assert (Hexit : loop_cond (fst full_day) = false) by (by vm_compute).
  split; [exact full_day_run|]. split; [exact Hexit|].
  exact (exit_state 1 1 full_day_tape _ _ full_day_run Hexit).
Defined.

Lemma minute_120_admit :
  admit_arrivals 8 (arrival_lambda (fst minute_120)) (fst minute_120)
  = Some admitted_120.
Proof. by vm_compute. Qed.

Lemma arrival_loop_effect_witness :
  run (init 1 1 full_day_tape) (fst minute_120) (snd minute_120) /\
  admit_arrivals 8 (arrival_lambda (fst minute_120)) (fst minute_120)
  = Some admitted_120 /\
  length (allPatients admitted_120) = 2%nat /\
  arrival_due admitted_120 = false /\
  same_outside_arrivals (fst minute_120) admitted_120 /\
  exists new,
    allPatients admitted_120 = allPatients (fst minute_120) ++ new /\
    waitingRoom admitted_120 ≡ₚ new ++ waitingRoom (fst minute_120) /\
    totalPatients admitted_120
    = totalPatients (fst minute_120) + Z.of_nat (length new) /\
    Forall (fun p => arrivalTime p = currentTime (fst minute_120)
                     /\ waitTime p = 0 /\ startTreatmentTime p = 0) new.
Proof.
  split; [exact minute_120_run|]. split; [exact minute_120_admit|].
  split; [by vm_compute|].
  exact (arrival_loop_effect 1 1 full_day_tape _ _ 8 admitted_120
           minute_120_run minute_120_admit).
Defined.

Lemma second_allocation_eq :
  allocate (fst five_waiting) = (fst second_allocation, Some second_assignment).
Proof. by vm_compute. Qed.

Lemma allocate_first_fit_witness :
  allocate (fst five_waiting) = (fst second_allocation, Some second_assignment) /\
  a_doctor second_assignment = 1%nat /\ a_bed second_assignment = 1%nat /\
  (forall k r, (k < a_doctor second_assignment)%nat ->
               doctors (fst five_waiting) !! k = Some r ->
               usable (a_time second_assignment) r = false) /\
  (forall k r, (k < a_bed second_assignment)%nat ->
               beds (fst five_waiting) !! k = Some r ->
               usable (a_time second_assignment) r = false).
Proof.
  split; [exact second_allocation_eq|]. split; [by vm_compute|].
  split; [by vm_compute|].
  exact (allocate_first_fit (fst five_waiting) (fst second_allocation)
           second_assignment second_allocation_eq).
Defined.

Lemma allocate_success_effect_witness :
  allocate (fst five_waiting) = (fst second_allocation, Some second_assignment) /\
  exists p,
    waitingRoom (fst five_waiting) = p :: waitingRoom (fst second_allocation) /\
    identity (a_patient second_assignment) = identity p /\
    a_until second_assignment = a_time second_assignment + treatmentTime p /\
    doctors (fst second_allocation) !! a_doctor second_assignment
    = Some (mkResource false (a_until second_assignment)) /\
    beds (fst second_allocation) !! a_bed second_assignment
    = Some (mkResource false (a_until second_assignment)) /\
    (forall k, k <> a_doctor second_assignment ->
               doctors (fst second_allocation) !! k
               = doctors (fst five_waiting) !! k) /\
    (forall k, k <> a_bed second_assignment ->
               beds (fst second_allocation) !! k
               = beds (fst five_waiting) !! k) /\
    patientsTreated (fst second_allocation)
    = patientsTreated (fst five_waiting) + 1 /\
    totalWaitTime (fst second_allocation)
    = totalWaitTime (fst five_waiting)
      + (a_time second_assignment - arrivalTime p) /\
    allPatients (fst second_allocation) = allPatients (fst five_waiting) /\
    totalPatients (fst second_allocation) = totalPatients (fst five_waiting) /\
    nextPatientId (fst second_allocation) = nextPatientId (fst five_waiting) /\
    currentTime (fst second_allocation) = currentTime (fst five_waiting) /\
    nextArrivalTime (fst second_allocation)
    = nextArrivalTime (fst five_waiting) /\
    rng (fst second_allocation) = rng (fst five_waiting).
Proof.
  split; [exact second_allocation_eq|].
  exact (allocate_success_effect (fst five_waiting) (fst second_allocation)
           second_assignment second_allocation_eq).
Defined.

Lemma arrival_lambda_by_minute_witness :
  1080 <= currentTime (fst full_day) /\
  arrival_lambda (fst full_day) = 25%Q /\
  arrival_lambda (fst minute_120) = 10%Q.
Proof.
  split; [by vm_compute|]. split.
  - refine (proj1 (proj2 (proj2 (arrival_lambda_by_minute (fst full_day)))) _).
    right. left. by vm_compute.
  - refine (proj1 (arrival_lambda_by_minute (fst minute_120)) _).
    by vm_compute.
Defined.

End MoreSamples.

(** ** The retained records of the program's pools *)

Section RetainedRecordsOfProgram.
Context {RNG : Type} `{RandomSourceOk RNG}.
Implicit Types s : State RNG.




End RetainedRecordsOfProgram.

Module RetainedSamples.
Import Scripted ScriptedFacts.


End RetainedSamples.
